(** * trainlib/train.py: a shallow embedding and its verified properties

    The script trains a multi-head chest X-ray classifier.  Everything it
    does itself is glue: it reads a JSON configuration, rewrites the image
    paths of three CSV manifests, configures three batch generators, builds
    a model graph with one sigmoid head per class, and drives the
    framework's training loop.  This file embeds that glue in Rocq.

    Python values are a small dynamic universe ([value]); exceptions are an
    inductive type and fallible code returns [result]; code with effects on
    the file system or on the framework runs in the monad [M] over a
    [World].  The third-party operations the script calls (the JSON and CSV
    parsers, the image decoder, the random draws and image warps, the
    training and inference loops) are the fields of the class [Framework]:
    the script is verified for every implementation of them.  Two pieces of
    the framework decide what the script's batches hold and in which order,
    the image pipeline of [ImageDataGenerator] and the index generator of
    its iterator; they are written out after the framework's sources. *)

From Stdlib Require Import ZArith QArith Qround String Ascii List Lia Bool DecimalString.
From stdpp Require Import base option list gmap strings.

Local Open Scope string_scope.
Local Open Scope Z_scope.

(** ** Exceptions and results *)

Inductive exn : Type :=
| KeyError (key : string)
| NameError (name : string)
| TypeError (what : string)
| ValueError (what : string)
| IndexError (what : string)
| ZeroDivisionError
| FileNotFoundError (path : string)
| FileExistsError (path : string)
| IsADirectoryError (path : string)
| NotADirectoryError (path : string)
| JSONDecodeError (what : string)
| ParserError (what : string)
| FrameworkError (what : string).

Inductive result (A : Type) : Type :=
| Ok (a : A)
| Raise (e : exn).
Arguments Ok {A} a.
Arguments Raise {A} e.

Definition rbind {A B : Type} (r : result A) (k : A -> result B) : result B :=
  match r with
  | Ok a => k a
  | Raise e => Raise e
  end.

Notation "'let?' x := r 'in' k" := (rbind r (fun x => k))
  (at level 10, x pattern, r at level 100, k at level 200).

(** [mapM_result f l] is [[f(x) for x in l]]: the first exception aborts. *)
Fixpoint mapM_result {A B : Type} (f : A -> result B) (l : list A) : result (list B) :=
  match l with
  | [] => Ok []
  | x :: l' =>
      let? y := f x in
      let? ys := mapM_result f l' in
      Ok (y :: ys)
  end.

(** ** Python values

    The values that flow through the script: what [json.load] returns and
    what a manifest cell holds.  A float is represented by the rational it
    denotes; [VNaN] is the float that is not a number (an empty CSV cell). *)

#[warnings="-register-all"]
Inductive value : Type :=
| VNone
| VBool (b : bool)
| VInt (z : Z)
| VFloat (q : Q)
| VNaN
| VStr (s : string)
| VList (l : list value)
| VDict (d : gmap string value).

(** [obj[key]] for a string key. *)
Definition getitem (obj : value) (key : string) : result value :=
  match obj with
  | VDict d =>
      match d !! key with
      | Some v => Ok v
      | None => Raise (KeyError key)
      end
  | VStr _ => Raise (TypeError "string indices must be integers")
  | VList _ => Raise (TypeError "list indices must be integers or slices")
  | _ => Raise (TypeError "object is not subscriptable")
  end.

(** [os.fspath]: only a [str] is a path here. *)
Definition fspath (v : value) : result string :=
  match v with
  | VStr s => Ok s
  | _ => Raise (TypeError "expected str, bytes or os.PathLike object")
  end.

(** ** posixpath *)

Module PosixPath.

Definition sep : string := "/".

Definition startswith (s p : string) : bool := String.prefix p s.

Fixpoint endswith_sep (s : string) : bool :=
  match s with
  | EmptyString => false
  | String c EmptyString => Ascii.eqb c "/"%char
  | String _ s' => endswith_sep s'
  end.

Definition is_empty (s : string) : bool :=
  match s with
  | EmptyString => true
  | _ => false
  end.

(** [os.path.isabs(s)] is [s.startswith('/')]. *)
Definition isabs (s : string) : bool := startswith s sep.

(** [os.path.join(a, b)] with two components:
    [if b.startswith(sep): path = b
     elif not path or path.endswith(sep): path += b
     else: path += sep + b]. *)
Definition join (a b : string) : string :=
  if startswith b sep then b
  else if is_empty a || endswith_sep a then String.append a b
  else String.append a (String.append sep b).

End PosixPath.

(** [os.path.join] on dynamic values: both arguments go through
    [os.fspath] first. *)
Definition os_path_join (a b : value) : result value :=
  let? a' := fspath a in
  let? b' := fspath b in
  Ok (VStr (PosixPath.join a' b')).

(** ** Data frames

    A manifest is a table: named columns of equal length, in file order. *)

Record DataFrame : Type := {
  df_rows : nat;
  df_columns : list (string * list value)
}.

Definition df_wf (df : DataFrame) : Prop :=
  Forall (fun c => length (snd c) = df_rows df) (df_columns df).

Fixpoint assoc_get {A : Type} (k : string) (l : list (string * A)) : option A :=
  match l with
  | [] => None
  | (k', v) :: l' => if String.eqb k k' then Some v else assoc_get k l'
  end.

Fixpoint assoc_set {A : Type} (k : string) (v : A) (l : list (string * A))
  : list (string * A) :=
  match l with
  | [] => [(k, v)]
  | (k', v') :: l' =>
      if String.eqb k k' then (k, v) :: l' else (k', v') :: assoc_set k v l'
  end.

(** [df[name]]. *)
Definition df_getitem (df : DataFrame) (name : string) : result (list value) :=
  match assoc_get name (df_columns df) with
  | Some col => Ok col
  | None => Raise (KeyError name)
  end.

(** [df[name] = col]: replaces the column in place, or appends it. *)
Definition df_setitem (df : DataFrame) (name : string) (col : list value) : DataFrame :=
  {| df_rows := df_rows df; df_columns := assoc_set name col (df_columns df) |}.

(** [series.apply(f)]. *)
Definition series_apply (f : value -> result value) (col : list value)
  : result (list value) :=
  mapM_result f col.

(** ** The world: file system and standard output

    The file system maps a path, as the script spells it, to a regular file
    with its text or to a directory.  It holds the configuration, the
    manifests, the checkpoint directory and the two dump files. *)

Inductive node : Type :=
| File (content : string)
| Dir.

Record World : Type := {
  fs : gmap string node;
  stdout : list string
}.

Definition M (A : Type) : Type := World -> result A * World.

Definition ret {A : Type} (a : A) : M A := fun w => (Ok a, w).

Definition raise {A : Type} (e : exn) : M A := fun w => (Raise e, w).

Definition bind {A B : Type} (c : M A) (k : A -> M B) : M B :=
  fun w =>
    match c w with
    | (Ok a, w') => k a w'
    | (Raise e, w') => (Raise e, w')
    end.

Definition lift {A : Type} (r : result A) : M A := fun w => (r, w).

Notation "'let!' x := c 'in' k" := (bind c (fun x => k))
  (at level 10, x pattern, c at level 100, k at level 200).

(** [print(s)]. *)
Definition print (s : string) : M unit :=
  fun w => (Ok tt, {| fs := fs w; stdout := stdout w ++ [s] |}).

(** [open(path, 'r')] followed by reading the whole file. *)
Definition read_file (path : string) : M string :=
  fun w =>
    match fs w !! path with
    | Some (File content) => (Ok content, w)
    | Some Dir => (Raise (IsADirectoryError path), w)
    | None => (Raise (FileNotFoundError path), w)
    end.

(** [open(path, 'wb')] followed by writing [content]: creates or truncates
    the file. *)
Definition write_file (path content : string) : M unit :=
  fun w =>
    match fs w !! path with
    | Some Dir => (Raise (IsADirectoryError path), w)
    | _ => (Ok tt, {| fs := <[path := File content]> (fs w); stdout := stdout w |})
    end.

(** [os.path.exists(path)]: true for a file as well as for a directory. *)
Definition os_path_exists (path : string) : M bool :=
  fun w => (Ok (bool_decide (is_Some (fs w !! path))), w).

(** [os.makedirs(path)] with [exist_ok=False]: the empty path and a path
    that already exists are errors; otherwise the directory is there
    afterwards.  The intermediate directories it makes on the way are not
    recorded. *)
Definition os_makedirs (path : string) : M unit :=
  fun w =>
    if PosixPath.is_empty path then (Raise (FileNotFoundError path), w)
    else
      match fs w !! path with
      | Some _ => (Raise (FileExistsError path), w)
      | None => (Ok tt, {| fs := <[path := Dir]> (fs w); stdout := stdout w |})
      end.

(** [str.split(sep)] for a one-character separator. *)
Fixpoint split (sep : ascii) (s : string) : list string :=
  match s with
  | EmptyString => [EmptyString]
  | String c s' =>
      if Ascii.eqb c sep then EmptyString :: split sep s'
      else
        match split sep s' with
        | [] => [String c EmptyString]
        | word :: words => String c word :: words
        end
  end.

(** [str(n)] for a length. *)
Definition str_of_nat (n : nat) : string :=
  NilEmpty.string_of_uint (Nat.to_uint n).

(** ** Arrays and generators *)

(** A two-dimensional array: its rows, all [nd_cols] wide. *)
Record ndarray2 : Type := {
  nd_cols : nat;
  nd_data : list (list value)
}.

Definition nd_rows (a : ndarray2) : nat := length (nd_data a).

Definition nd_wf (a : ndarray2) : Prop :=
  Forall (fun row => length row = nd_cols a) (nd_data a).

(** [a[:, i]] for [i >= 0]: the one-dimensional array of column [i]. *)
Definition nd_column (a : ndarray2) (i : nat) : result (list value) :=
  if (i <? nd_cols a)%nat then Ok (map (fun row => nth i row VNaN) (nd_data a))
  else Raise (IndexError "index is out of bounds for axis 1").

(** [range(n)] as the list of its elements; [n] must be an [int] (a
    [bool] is one). *)
Definition py_range (n : value) : result (list nat) :=
  match n with
  | VInt z => Ok (seq 0 (Z.to_nat z))
  | VBool b => Ok (seq 0 (if b then 1 else 0)%nat)
  | _ => Raise (TypeError "object cannot be interpreted as an integer")
  end.

(** A Python generator or iterator as a state machine: [gen_next] is one
    call of [next()]. *)
Inductive gen_step (A S : Type) : Type :=
| GYield (a : A) (s : S)
| GStop
| GRaise (e : exn).
Arguments GYield {A S} a s.
Arguments GStop {A S}.
Arguments GRaise {A S} e.

Record generator (A : Type) : Type := {
  gen_state : Type;
  gen_init : gen_state;
  gen_next : gen_state -> gen_step A gen_state
}.
Arguments gen_state {A} g.
Arguments gen_init {A} g.
Arguments gen_next {A} g s.

(** What a consumer sees of a generator in its first [fuel] calls of
    [next()]: the items, and how the iteration ended if it did. *)
Inductive gen_end : Type :=
| Exhausted
| Raised (e : exn)
| Running.

Fixpoint gen_run_from {A : Type} (g : generator A) (s : gen_state g) (fuel : nat)
  : list A * gen_end :=
  match fuel with
  | O => ([], Running)
  | S fuel' =>
      match gen_next g s with
      | GYield a s' =>
          let (items, e) := gen_run_from g s' fuel' in (a :: items, e)
      | GStop => ([], Exhausted)
      | GRaise e => ([], Raised e)
      end
  end.

Definition gen_run {A : Type} (g : generator A) (fuel : nat) : list A * gen_end :=
  gen_run_from g (gen_init g) fuel.

(** A finite list as an iterator, for batches given one by one. *)
Definition gen_of_list {A : Type} (l : list A) : generator A :=
  {| gen_state := list A;
     gen_init := l;
     gen_next := fun s => match s with
                          | [] => GStop
                          | a :: s' => GYield a s'
                          end |}.

(** [l[i:j]] for a list or a one-dimensional array. *)
Definition py_slice {A : Type} (l : list A) (i j : Z) : list A :=
  let n := Z.of_nat (length l) in
  let norm := fun k => if k <? 0 then Z.max 0 (k + n) else Z.min k n in
  firstn (Z.to_nat (norm j - norm i)) (skipn (Z.to_nat (norm i)) l).

(** An [int] where one is required (a [bool] is one). *)
Definition as_int (v : value) : result Z :=
  match v with
  | VInt z => Ok z
  | VBool b => Ok (if b then 1 else 0)
  | _ => Raise (TypeError "an integer is required")
  end.

(** ** The model graph

    A symbolic tensor is the backbone's output or the result of calling a
    layer object on a tensor.  Every layer constructor call makes a new
    layer object; [layer_uid] tells the objects apart. *)

Inductive layer_kind : Type :=
| Dense (units : Z) (activation : string)
| Dropout (rate : Q).

Record layer : Type := {
  layer_uid : nat;
  kind : layer_kind
}.

Inductive tensor : Type :=
| BackboneInput
| BackboneOutput (weights : string) (include_top : bool)
| Apply (l : layer) (input : tensor).

Record Model : Type := {
  inputs : tensor;
  outputs : list tensor
}.

(** The width of a tensor's last axis, where the graph fixes it. *)
Definition last_axis (t : tensor) : option Z :=
  match t with
  | Apply {| kind := Dense units _ |} _ => Some units
  | _ => None
  end.

(** ** What the script hands to the framework *)

Record ImageDataGenerator : Type := {
  rotation_range : Q;
  zoom_range : Q;
  horizontal_flip : bool;
  vertical_flip : bool;
  fill_mode : string;
  rescale : option Q
}.

(** The constructor's defaults for the arguments above. *)
Definition ImageDataGenerator_defaults : ImageDataGenerator :=
  {| rotation_range := 0;
     zoom_range := 0;
     horizontal_flip := false;
     vertical_flip := false;
     fill_mode := "nearest";
     rescale := None |}.

Definition Image : Type := list (list (list Q)).

Inductive optimizer : Type :=
| Adam (learning_rate : value).

Inductive metric : Type :=
| Accuracy
| AUC (multi_label : bool).

Record compile_args : Type := {
  ca_optimizer : optimizer;
  ca_loss : list string;
  ca_metrics : list metric
}.

Inductive callback : Type :=
| ReduceLROnPlateau (monitor mode : string) (factor : Q) (patience : Z)
    (min_lr : Q) (verbose : Z)
| EarlyStopping (monitor mode : string) (patience : Z)
    (restore_best_weights : bool)
| ModelCheckpoint (filepath : string) (monitor mode : string) (verbose : Z)
    (save_best_only save_weights_only : bool).

(** A batch as the iterators yield it, and as the wrapped generators do. *)
Definition raw_batch : Type := list Image * ndarray2.
Definition head_batch : Type := list Image * list (list value).

Record fit_args : Type := {
  fa_x : generator head_batch;
  fa_validation_data : generator head_batch;
  fa_steps_per_epoch : Z;
  fa_validation_steps : Z;
  fa_epochs : value;
  fa_shuffle : bool;
  fa_callbacks : list callback
}.

Record History : Type := {
  history : value
}.

(** A module-level name is bound to a data frame, to a plain value or to
    some other object. *)
Inductive pyobj : Type :=
| OFrame (df : DataFrame)
| OValue (v : value)
| OOpaque.

(** [len(obj)]. *)
Definition py_len (obj : pyobj) : result Z :=
  match obj with
  | OFrame df => Ok (Z.of_nat (df_rows df))
  | OValue (VStr s) => Ok (Z.of_nat (String.length s))
  | OValue (VList l) => Ok (Z.of_nat (length l))
  | OValue (VDict d) => Ok (Z.of_nat (size d))
  | _ => Raise (TypeError "object has no len()")
  end.

(** The value of a global name. *)
Definition load_global (globals : gmap string pyobj) (name : string) : result pyobj :=
  match globals !! name with
  | Some obj => Ok obj
  | None => Raise (NameError name)
  end.

(** [math.ceil(n / d)] for an [int] [n] and a configuration value [d].
    The quotient is taken exactly, which is what the float division gives
    for the lengths and batch sizes that fit a float's mantissa. *)
Definition ceil_div (n : Z) (d : value) : result Z :=
  match d with
  | VInt z =>
      if z =? 0 then Raise ZeroDivisionError
      else Ok (Qceiling (inject_Z n / inject_Z z))
  | VBool b =>
      if b then Ok n else Raise ZeroDivisionError
  | VFloat q =>
      if Qeq_bool q 0 then Raise ZeroDivisionError
      else Ok (Qceiling (inject_Z n / q))
  | VNaN => Raise (ValueError "cannot convert float NaN to integer")
  | _ => Raise (TypeError "unsupported operand type(s) for /")
  end.

(** ** The framework

    The operations of the libraries the script calls and does not define.
    Image files are only ever read, so the decoder and the file check are
    functions of the path. *)

Class Framework : Type := {
  Rng : Type;
  json_loads : string -> result value;
  csv_parse : string -> result DataFrame;
  valid_image_file : string -> bool;
  load_img : string -> value * value -> result Image;
  np_random_initial : Rng;
  np_random_seed : Z -> Rng;
  np_random_uniform : Rng -> Q -> Q -> Q * Rng;
  np_random_random : Rng -> Q * Rng;
  np_random_permutation : Rng -> nat -> list nat * Rng;
  affine_warp : Q -> Q -> Q -> string -> Image -> Image;
  flip_axis : nat -> Image -> Image;
  scale_pixels : Q -> Image -> Image;
  keras_compile : Model -> compile_args -> result unit;
  keras_fit : Model -> compile_args -> fit_args -> M History;
  keras_predict : Model -> generator head_batch -> M value;
  pickle_dumps : value -> string
}.

Section Script.

Context {F : Framework}.

(** *** The image pipeline of [ImageDataGenerator]

    What the framework does to one image, for the constructor arguments the
    script uses; the other random transforms (shifts, shear, channel shift,
    brightness) are off by default in both of the script's generators. *)

Record transform_params : Type := {
  theta : Q;
  zx : Q;
  zy : Q;
  flip_horizontal : bool;
  flip_vertical : bool
}.

(** [get_random_transform]: an angle is drawn only for a non-zero
    rotation range, zoom factors only when the zoom interval is not
    [[1, 1]]; the two flip draws are always made and count only when the
    flip is switched on. *)
Definition get_random_transform (g : ImageDataGenerator) (r : Rng)
  : transform_params * Rng :=
  let (th, r1) :=
    if Qeq_bool (rotation_range g) 0 then (0%Q, r)
    else np_random_uniform r (- rotation_range g)%Q (rotation_range g) in
  let lo := (1 - zoom_range g)%Q in
  let hi := (1 + zoom_range g)%Q in
  let '(x, y, r2) :=
    if Qeq_bool lo 1 && Qeq_bool hi 1 then (1%Q, 1%Q, r1)
    else
      let (x, ra) := np_random_uniform r1 lo hi in
      let (y, rb) := np_random_uniform ra lo hi in
      (x, y, rb) in
  let (u, r3) := np_random_random r2 in
  let (v, r4) := np_random_random r3 in
  ({| theta := th; zx := x; zy := y;
      flip_horizontal := negb (Qle_bool (1 # 2) u) && horizontal_flip g;
      flip_vertical := negb (Qle_bool (1 # 2) v) && vertical_flip g |}, r4).

(** [apply_transform]: the affine warp is skipped for the identity
    parameters. *)
Definition apply_transform (g : ImageDataGenerator) (p : transform_params)
    (x : Image) : Image :=
  let x :=
    if Qeq_bool (theta p) 0 && Qeq_bool (zx p) 1 && Qeq_bool (zy p) 1 then x
    else affine_warp (theta p) (zx p) (zy p) (fill_mode g) x in
  let x := if flip_horizontal p then flip_axis 1 x else x in
  if flip_vertical p then flip_axis 0 x else x.

(** [standardize]: [if self.rescale: x *= self.rescale]. *)
Definition standardize (g : ImageDataGenerator) (x : Image) : Image :=
  match rescale g with
  | Some q => if Qeq_bool q 0 then x else scale_pixels q x
  | None => x
  end.

Definition transform_image (g : ImageDataGenerator) (r : Rng) (x : Image)
  : Image * Rng :=
  let (p, r') := get_random_transform g r in
  (standardize g (apply_transform g p x), r').

(** *** The iterator [flow_from_dataframe] returns

    The framework's [DataFrameIterator]: what it keeps of the data frame,
    and how [next()] picks and assembles a batch. *)

Record DataFrameIterator : Type := {
  image_data_generator : ImageDataGenerator;
  x_col : string;
  y_col : list string;
  class_mode : string;
  target_size : value * value;
  shuffle : bool;
  seed : option Z;
  batch_size : value;
  filepaths : list string;
  targets : ndarray2
}.

Definition as_str (v : value) : result string :=
  match v with
  | VStr s => Ok s
  | _ => Raise (TypeError "All values in column x_col must be strings.")
  end.

(** Row [i] of the label columns. *)
Definition label_row (cols : list (list value)) (i : nat) : list value :=
  map (fun col => nth i col VNaN) cols.

(** [flow_from_dataframe] with [directory=None] and [class_mode="raw"]:
    the path column must hold strings, rows whose image file is not
    valid are dropped, and the labels are the [y_col] columns of the
    rows that remain. *)
Definition flow_from_dataframe (g : ImageDataGenerator) (dataframe : DataFrame)
    (x : string) (y : list string) (size : value * value) (shuf : bool)
    (sd : option Z) (bs : value) : result DataFrameIterator :=
  let? paths := df_getitem dataframe x in
  let? names := mapM_result as_str paths in
  let? cols := mapM_result (df_getitem dataframe) y in
  let rows := map (label_row cols) (seq 0 (length names)) in
  let kept := List.filter (fun row => valid_image_file (fst row)) (combine names rows) in
  Ok {| image_data_generator := g;
        x_col := x;
        y_col := y;
        class_mode := "raw";
        target_size := size;
        shuffle := shuf;
        seed := sd;
        batch_size := bs;
        filepaths := map fst kept;
        targets := {| nd_cols := length y; nd_data := map snd kept |} |}.

Definition samples (it : DataFrameIterator) : Z :=
  Z.of_nat (length (filepaths it)).

(** The state of an iterator between two batches.  The framework keeps one
    random state for the whole process; here every iterator carries its
    own, which changes no property below. *)
Record iter_state : Type := {
  batch_index : Z;
  total_batches_seen : Z;
  index_array : list nat;
  rng : Rng
}.

Definition iter_init : iter_state :=
  {| batch_index := 0;
     total_batches_seen := 0;
     index_array := [];
     rng := np_random_initial |}.

(** One turn of [_flow_index]: the indices of the next batch and the
    state after it. *)
Definition flow_index (it : DataFrameIterator) (bs : Z) (s : iter_state)
  : list nat * iter_state :=
  let n := samples it in
  let r0 :=
    match seed it with
    | Some sd => np_random_seed (sd + total_batches_seen s)
    | None => rng s
    end in
  let (arr, r1) :=
    if batch_index s =? 0 then
      if shuffle it then np_random_permutation r0 (Z.to_nat n)
      else (seq 0 (Z.to_nat n), r0)
    else (index_array s, r0) in
  let current_index := if n =? 0 then 0 else (batch_index s * bs) mod n in
  let next_index :=
    if current_index + bs <? n then batch_index s + 1 else 0 in
  (py_slice arr current_index (current_index + bs),
   {| batch_index := next_index;
      total_batches_seen := total_batches_seen s + 1;
      index_array := arr;
      rng := r1 |}).

(** The images of a batch: each file is decoded, transformed with fresh
    random parameters and standardized. *)
Fixpoint load_batch (it : DataFrameIterator) (idx : list nat) (r : Rng)
  : result (list Image) * Rng :=
  match idx with
  | [] => (Ok [], r)
  | j :: idx' =>
      match load_img (nth j (filepaths it) "") (target_size it) with
      | Raise e => (Raise e, r)
      | Ok img =>
          let (x, r') := transform_image (image_data_generator it) r img in
          match load_batch it idx' r' with
          | (Ok xs, r'') => (Ok (x :: xs), r'')
          | (Raise e, r'') => (Raise e, r'')
          end
      end
  end.

(** [targets[index_array]]. *)
Definition take_rows (a : ndarray2) (idx : list nat) : ndarray2 :=
  {| nd_cols := nd_cols a;
     nd_data := map (fun j => nth j (nd_data a) []) idx |}.

(** [next(iterator)]. *)
Definition iter_next (it : DataFrameIterator) (s : iter_state)
  : gen_step raw_batch iter_state :=
  match as_int (batch_size it) with
  | Raise e => GRaise e
  | Ok bs =>
      let (idx, s') := flow_index it bs s in
      match load_batch it idx (rng s') with
      | (Ok xs, r) =>
          GYield (xs, take_rows (targets it) idx)
            {| batch_index := batch_index s';
               total_batches_seen := total_batches_seen s';
               index_array := index_array s';
               rng := r |}
      | (Raise e, _) => GRaise e
      end
  end.

Definition iterate (it : DataFrameIterator) : generator raw_batch :=
  {| gen_state := iter_state;
     gen_init := iter_init;
     gen_next := iter_next it |}.

(** *** The script *)

(** [load_config], lines 26-30. *)
Definition load_config (config_path : string) : M value :=
  let! text := read_file config_path in
  lift (json_loads text).

(** [modify_paths], lines 32-33. *)
Definition modify_paths (base_path relative_path : value) : result value :=
  os_path_join base_path relative_path.

(** [pd.read_csv(path)]. *)
Definition read_csv (path : value) : M DataFrame :=
  let! p := lift (fspath path) in
  let! text := read_file p in
  lift (csv_parse text).

(** [df['path'] = df['path'].apply(lambda x: modify_paths(image_base, x))]. *)
Definition rewrite_paths (image_base : value) (df : DataFrame) : result DataFrame :=
  let? col := df_getitem df "path" in
  let? col' := series_apply (fun x => modify_paths image_base x) col in
  Ok (df_setitem df "path" col').

(** [load_datasets], lines 38-48. *)
Definition load_datasets (config : value) : M (DataFrame * DataFrame * DataFrame) :=
  let! csv_base := lift (getitem config "META_BASE_PATH") in
  let! image_base := lift (getitem config "IMAGE_BASE_PATH") in
  let! train_csv := lift (os_path_join csv_base (VStr "train.csv")) in
  let! train := read_csv train_csv in
  let! valid_csv := lift (os_path_join csv_base (VStr "valid.csv")) in
  let! valid := read_csv valid_csv in
  let! test_csv := lift (os_path_join csv_base (VStr "test.csv")) in
  let! test := read_csv test_csv in
  let! train := lift (rewrite_paths image_base train) in
  let! valid := lift (rewrite_paths image_base valid) in
  let! test := lift (rewrite_paths image_base test) in
  ret (train, valid, test).

(** [[batch_y[:,i] for i in range(num_classes)]]. *)
Definition split_heads (batch_y : ndarray2) (num_classes : value)
  : result (list (list value)) :=
  let? r := py_range num_classes in
  mapM_result (nd_column batch_y) r.

(** [generator_wrapper], lines 51-53. *)
Definition generator_wrapper (g : generator raw_batch) (num_classes : value)
  : generator head_batch :=
  {| gen_state := gen_state g;
     gen_init := gen_init g;
     gen_next := fun s =>
       match gen_next g s with
       | GYield (batch_x, batch_y) s' =>
           match split_heads batch_y num_classes with
           | Ok heads => GYield (batch_x, heads) s'
           | Raise e => GRaise e
           end
       | GStop => GStop
       | GRaise e => GRaise e
       end |}.

(** Line 65. *)
Definition labels : list string :=
  split ","%char
    "Atelectasis,Cardiomegaly,Consolidation,Edema,Enlarged Cardiomediastinum,Fracture,Lung Lesion,Lung Opacity,No Finding,Pleural Effusion,Pleural Other,Pneumonia,Pneumothorax,Support Devices".

(** Lines 68-74. *)
Definition train_gen : ImageDataGenerator :=
  {| rotation_range := 15;
     zoom_range := 1 # 10;
     horizontal_flip := true;
     vertical_flip := vertical_flip ImageDataGenerator_defaults;
     fill_mode := "constant";
     rescale := Some (1 # 255) |}.

(** Line 76. *)
Definition validate_gen : ImageDataGenerator :=
  {| rotation_range := rotation_range ImageDataGenerator_defaults;
     zoom_range := zoom_range ImageDataGenerator_defaults;
     horizontal_flip := horizontal_flip ImageDataGenerator_defaults;
     vertical_flip := vertical_flip ImageDataGenerator_defaults;
     fill_mode := fill_mode ImageDataGenerator_defaults;
     rescale := Some (1 # 255) |}.

Record batches : Type := {
  train_batches : DataFrameIterator;
  validate_batches : DataFrameIterator;
  test_batches : DataFrameIterator
}.

(** [get_image_generators] up to its [return], lines 57-110. *)
Definition flow_batches (train valid test : DataFrame) (config : value)
  : M (batches * value) :=
  let! HEIGHT := lift (getitem config "IMG_HEIGHT") in
  let! WIDTH := lift (getitem config "IMG_WIDTH") in
  let! BATCH_SIZE := lift (getitem config "BATCH_SIZE") in
  let! TEST_BATCH := lift (getitem config "TEST_BATCH") in
  let! num_classes := lift (getitem config "NUM_CLASSES") in
  let! _ := print (String.append "Num labels " (str_of_nat (length labels))) in
  let! train_it :=
    lift (flow_from_dataframe train_gen train "path" labels (HEIGHT, WIDTH)
            true (Some 1) BATCH_SIZE) in
  let! validate_it :=
    lift (flow_from_dataframe validate_gen valid "path" labels (HEIGHT, WIDTH)
            true None BATCH_SIZE) in
  let! test_it :=
    lift (flow_from_dataframe validate_gen test "path" labels (HEIGHT, WIDTH)
            false None TEST_BATCH) in
  ret ({| train_batches := train_it;
          validate_batches := validate_it;
          test_batches := test_it |}, num_classes).

(** [get_image_generators], lines 57-112. *)
Definition get_image_generators (train valid test : DataFrame) (config : value)
  : M (generator head_batch * generator head_batch * generator head_batch) :=
  let! (b, num_classes) := flow_batches train valid test config in
  ret (generator_wrapper (iterate (train_batches b)) num_classes,
       generator_wrapper (iterate (validate_batches b)) num_classes,
       generator_wrapper (iterate (test_batches b)) num_classes).

Definition new_layer (uid : nat) (k : layer_kind) : layer :=
  {| layer_uid := uid; kind := k |}.

(** The loop of lines 122-124: every turn makes a new layer, calls it on
    [x] and appends the result. *)
Definition add_heads (x : tensor) (r : list nat) (first_uid : nat) : list tensor :=
  fst (fold_left
         (fun (acc : list tensor * nat) (_ : nat) =>
            let (output, uid) := acc in
            ((output ++ [Apply (new_layer uid (Dense 1 "sigmoid")) x])%list, S uid))
         r ([], first_uid)).

(** Lines 116-119: the backbone's output through [Dense(512)] and
    [Dropout(0.3)]. *)
Definition trunk : tensor :=
  let x := BackboneOutput "imagenet" false in
  let x := Apply (new_layer 0 (Dense 512 "relu")) x in
  Apply (new_layer 1 (Dropout (3 # 10))) x.

(** [get_model], lines 114-128. *)
Definition get_model (num_classes : value) : result Model :=
  let x := trunk in
  let? r := py_range num_classes in
  let output := add_heads x r 2 in
  Ok {| inputs := BackboneInput; outputs := output |}.

(** [str(losses)] for a list of strings. *)
Fixpoint repr_items (l : list string) : string :=
  match l with
  | [] => ""
  | [s] => String.append "'" (String.append s "'")
  | s :: l' =>
      String.append "'" (String.append s (String.append "', " (repr_items l')))
  end.

Definition repr_list (l : list string) : string :=
  String.append "[" (String.append (repr_items l) "]").

(** [train_model] up to the call of [model.fit], lines 130-161, and the
    arguments of that call, lines 163-170.  [globals] is the module
    namespace at the time of the call: the function has no local [train]
    or [valid], so lines 138-139 read the module's. *)
Definition prepare_training (globals : gmap string pyobj) (model : Model)
    (train_ds valid_ds : generator head_batch) (config : value)
  : M (compile_args * fit_args) :=
  let! BATCH_SIZE := lift (getitem config "BATCH_SIZE") in
  let! TEST_BATCH := lift (getitem config "TEST_BATCH") in
  let! lr := lift (getitem config "INITIAL_LR") in
  let! epochs := lift (getitem config "MAX_EPOCHS") in
  let! weights_dir := lift (getitem config "WEIGHTS_DIR") in
  let! train := lift (load_global globals "train") in
  let! train_len := lift (py_len train) in
  let! train_epoch := lift (ceil_div train_len BATCH_SIZE) in
  let! valid := lift (load_global globals "valid") in
  let! valid_len := lift (py_len valid) in
  let! val_epoch := lift (ceil_div valid_len BATCH_SIZE) in
  let! num_classes := lift (getitem config "NUM_CLASSES") in
  let! r := lift (py_range num_classes) in
  let losses := map (fun _ => "binary_crossentropy") r in
  let! _ := print (repr_list losses) in
  let ca := {| ca_optimizer := Adam lr;
               ca_loss := losses;
               ca_metrics := [Accuracy; AUC true] |} in
  let! _ := lift (keras_compile model ca) in
  let reduce_lr :=
    ReduceLROnPlateau "val_loss" "min" (1 # 10) 2 (1 # 1000000) 1 in
  let ES := EarlyStopping "val_loss" "min" 4 true in
  let! weights_dir := lift (fspath weights_dir) in
  let! present := os_path_exists weights_dir in
  let! _ := if negb present then os_makedirs weights_dir else ret tt in
  let weights_path := PosixPath.join weights_dir "model.hdf5" in
  let checkloss := ModelCheckpoint weights_path "val_loss" "min" 1 true false in
  ret (ca, {| fa_x := train_ds;
              fa_validation_data := valid_ds;
              fa_steps_per_epoch := train_epoch;
              fa_validation_steps := val_epoch;
              fa_epochs := epochs;
              fa_shuffle := true;
              fa_callbacks := [reduce_lr; checkloss; ES] |}).

(** [train_model], lines 130-172. *)
Definition train_model (globals : gmap string pyobj) (model : Model)
    (train_ds valid_ds : generator head_batch) (config : value) : M History :=
  let! (ca, fa) := prepare_training globals model train_ds valid_ds config in
  keras_fit model ca fa.

(** The module namespace before line 176: the imported modules and the
    functions, none of them called [train] or [valid]. *)
Definition module_globals : gmap string pyobj :=
  list_to_map
    (map (fun name => (name, OOpaque))
       ["copy"; "sys"; "math"; "datetime"; "random"; "np"; "pd"; "tf"; "K";
        "Adam"; "RMSprop"; "SGD"; "concatenate"; "add";
        "GlobalAveragePooling2D"; "BatchNormalization"; "Input"; "Dense";
        "Activation"; "Dropout"; "Flatten"; "Model"; "EarlyStopping";
        "LearningRateScheduler"; "ReduceLROnPlateau"; "ModelCheckpoint";
        "ImageDataGenerator"; "DenseNet121"; "load_img"; "optimizers";
        "pickle"; "os"; "json"; "ImageFile"; "argparse"; "load_config";
        "modify_paths"; "load_datasets"; "generator_wrapper";
        "get_image_generators"; "get_model"; "train_model"]).

(** The [__main__] block, lines 174-194. *)
Definition main : M unit :=
  let globals := module_globals in
  let! config := load_config "config.json" in
  let globals := <["config" := OValue config]> globals in
  let! (train, valid, test) := load_datasets config in
  let globals :=
    <["test" := OFrame test]>
      (<["valid" := OFrame valid]> (<["train" := OFrame train]> globals)) in
  let! (train_ds, valid_ds, test_ds) :=
    get_image_generators train valid test config in
  let globals :=
    <["test_batches" := OOpaque]>
      (<["valid_batches" := OOpaque]> (<["train_batches" := OOpaque]> globals)) in
  let! num_classes := lift (getitem config "NUM_CLASSES") in
  let globals := <["num_classes" := OValue num_classes]> globals in
  let! model := lift (get_model num_classes) in
  let globals := <["model" := OOpaque]> globals in
  let! hist := train_model globals model train_ds valid_ds config in
  let! Y_pred := keras_predict model test_ds in
  let! _ := write_file "predictions" (pickle_dumps Y_pred) in
  write_file "train_hist" (pickle_dumps (history hist)).

End Script.

(** ** The claims of the specification, as propositions *)

(** Specification, sections 3 and 8(a): after loading, every path of every
    manifest is absolute and lies under the configured image base. *)
Definition paths_absolute_under_base {F : Framework} (config : value) (w : World) : Prop :=
  forall train valid test w' base,
    load_datasets config w = (Ok (train, valid, test), w') ->
    getitem config "IMAGE_BASE_PATH" = Ok (VStr base) ->
    forall df col v,
      In df [train; valid; test] ->
      df_getitem df "path" = Ok col ->
      In v col ->
      exists s, v = VStr s /\ PosixPath.isabs s = true /\ String.prefix base s = true.

(** The last clause of the claim on [modify_paths]: a relative base never
    gives an absolute result. *)
Definition relative_base_gives_relative_path : Prop :=
  forall base_path relative_path s,
    PosixPath.isabs base_path = false ->
    modify_paths (VStr base_path) (VStr relative_path) = Ok (VStr s) ->
    PosixPath.isabs s = false.



(** A path cell before and after [load_datasets]: the new cell is the join
    of the base and the old one, and for an absolute base and an old path
    that is relative it is absolute and lies under the base. *)
Definition cell_rewritten (base : string) (old new : value) : Prop :=
  exists rel,
    old = VStr rel /\
    new = VStr (PosixPath.join base rel) /\
    (PosixPath.isabs base = true ->
     PosixPath.isabs rel = false ->
     PosixPath.isabs (PosixPath.join base rel) = true /\
     String.prefix base (PosixPath.join base rel) = true).

(** A manifest as read and as returned: the path column is rewritten cell
    by cell, in row order. *)
Definition frame_rewritten (base : string) (old new : DataFrame) : Prop :=
  exists col0 col,
    df_getitem old "path" = Ok col0 /\
    df_getitem new "path" = Ok col /\
    Forall2 (cell_rewritten base) col0 col.

(** The layer object that produced a tensor. *)
Definition producer (t : tensor) : option layer :=
  match t with
  | Apply l _ => Some l
  | _ => None
  end.

(** The tensor a layer was called on to produce [t]. *)
Definition fed_from (t : tensor) : option tensor :=
  match t with
  | Apply _ input => Some input
  | _ => None
  end.

(** The error of the first failing step of a sequence, if any. *)
Fixpoint first_error {A : Type} (steps : list (result A)) : option exn :=
  match steps with
  | [] => None
  | Ok _ :: steps' => first_error steps'
  | Raise e :: _ => Some e
  end.




(** ** A small installation, to run the script on *)

Module Fixture.

Definition cells : list value := [VFloat 1; VFloat 0; VNaN].

Definition frame (paths : list string) : DataFrame :=
  {| df_rows := length paths;
     df_columns :=
       ("path", map VStr paths)
         :: map (fun name => (name, firstn (length paths) cells)) labels |}.

Definition manifest : DataFrame := frame ["p/a.png"; "p/b.png"; "p/c.png"].

Definition manifest_abs : DataFrame := frame ["/mnt/a.png"; "p/b.png"].

(** The manifests as [load_datasets] returns them, for three bases. *)
Definition loaded : DataFrame :=
  frame ["/data/images/p/a.png"; "/data/images/p/b.png"; "/data/images/p/c.png"].

Definition loaded_relative : DataFrame :=
  frame ["images/p/a.png"; "images/p/b.png"; "images/p/c.png"].

Definition loaded_abs : DataFrame := frame ["/mnt/a.png"; "/data/images/p/b.png"].

Definition config_with (image_base weights_dir : string) : value :=
  VDict (list_to_map
    [("META_BASE_PATH", VStr "meta");
     ("IMAGE_BASE_PATH", VStr image_base);
     ("IMG_HEIGHT", VInt 224);
     ("IMG_WIDTH", VInt 224);
     ("BATCH_SIZE", VInt 2);
     ("TEST_BATCH", VInt 2);
     ("NUM_CLASSES", VInt 14);
     ("INITIAL_LR", VFloat (1 # 10000));
     ("MAX_EPOCHS", VInt 3);
     ("WEIGHTS_DIR", VStr weights_dir)]).

Definition config : value := config_with "/data/images" "weights".

Definition framework : Framework :=
  {| Rng := nat;
     json_loads := fun text =>
       if String.eqb text "config" then Ok config
       else Raise (JSONDecodeError "Expecting value");
     csv_parse := fun text =>
       if String.eqb text "manifest" then Ok manifest
       else if String.eqb text "manifest-abs" then Ok manifest_abs
       else Raise (ParserError "Error tokenizing data");
     valid_image_file := fun _ => true;
     load_img := fun path _ => Ok [[[inject_Z (Z.of_nat (String.length path))]]];
     np_random_initial := O;
     np_random_seed := Z.to_nat;
     np_random_uniform := fun r lo _ => (lo, S r);
     np_random_random := fun r => (0%Q, S r);
     np_random_permutation := fun r n => (rev (seq 0 n), S r);
     affine_warp := fun _ _ _ _ x => x;
     flip_axis := fun _ x => map (@rev (list Q)) x;
     scale_pixels := fun q x => map (map (map (Qmult q))) x;
     keras_compile := fun _ _ => Ok tt;
     keras_fit := fun _ _ _ w => (Ok {| history := VDict ∅ |}, w);
     keras_predict := fun _ _ w => (Ok (VList []), w);
     pickle_dumps := fun _ => "pickle" |}.

Definition world_with (train_csv : string) : World :=
  {| fs := list_to_map
       [("config.json", File "config");
        ("meta/train.csv", File train_csv);
        ("meta/valid.csv", File "manifest");
        ("meta/test.csv", File "manifest")];
     stdout := [] |}.

Definition world : World := world_with "manifest".

(** The same installation without [valid.csv]. *)
Definition world_no_valid : World :=
  {| fs := delete "meta/valid.csv" (fs world); stdout := [] |}.

(** The same installation with a configuration that is not JSON. *)
Definition world_bad_config : World :=
  {| fs := <["config.json" := File "{"]> (fs world); stdout := [] |}.

(** The iterators [get_image_generators] builds over [loaded]. *)
Definition iterator (g : ImageDataGenerator) (shuf : bool) (sd : option Z)
  : DataFrameIterator :=
  {| image_data_generator := g;
     x_col := "path";
     y_col := labels;
     class_mode := "raw";
     target_size := (VInt 224, VInt 224);
     shuffle := shuf;
     seed := sd;
     batch_size := VInt 2;
     filepaths :=
       ["/data/images/p/a.png"; "/data/images/p/b.png"; "/data/images/p/c.png"];
     targets := {| nd_cols := 14; nd_data := map (fun v => repeat v 14%nat) cells |} |}.

Definition flowed : batches :=
  {| train_batches := iterator train_gen true (Some 1);
     validate_batches := iterator validate_gen true None;
     test_batches := iterator validate_gen false None |}.

Definition world_flowed : World :=
  {| fs := fs world; stdout := ["Num labels 14"] |}.

(** The module namespace when [train_model] is called from the
    [__main__] block, and the arguments of the call and of [model.fit]. *)
Definition globals : gmap string pyobj :=
  <["valid" := OFrame loaded]> (<["train" := OFrame loaded]> module_globals).

Definition no_batches : generator head_batch := gen_of_list [].

Definition model : Model :=
  {| inputs := BackboneInput; outputs := add_heads trunk (seq 0 14) 2 |}.

Definition compile_arguments : compile_args :=
  {| ca_optimizer := Adam (VFloat (1 # 10000));
     ca_loss := repeat "binary_crossentropy" 14;
     ca_metrics := [Accuracy; AUC true] |}.

Definition fit_arguments : fit_args :=
  {| fa_x := no_batches;
     fa_validation_data := no_batches;
     fa_steps_per_epoch := 2;
     fa_validation_steps := 2;
     fa_epochs := VInt 3;
     fa_shuffle := true;
     fa_callbacks :=
       [ReduceLROnPlateau "val_loss" "min" (1 # 10) 2 (1 # 1000000) 1;
        ModelCheckpoint "weights/model.hdf5" "val_loss" "min" 1 true false;
        EarlyStopping "val_loss" "min" 4 true] |}.

Definition world_prepared : World :=
  {| fs := <["weights" := Dir]> (fs world);
     stdout := [repr_list (repeat "binary_crossentropy" 14)] |}.


(** One batch of two rows with three label columns. *)
Definition batch_y : ndarray2 :=
  {| nd_cols := 3;
     nd_data := [[VFloat 1; VFloat 0; VNaN]; [VFloat 0; VFloat 1; VFloat 1]] |}.

Definition batch_x : list Image := [[[[1%Q]]]; [[[0%Q]]]].

End Fixture.

(** The module namespace of the [__main__] block when it calls
    [train_model], line 184. *)
Definition main_globals (config : value) (train valid test : DataFrame)
    (num_classes : value) : gmap string pyobj :=
  <["model" := OOpaque]>
    (<["num_classes" := OValue num_classes]>
       (<["test_batches" := OOpaque]>
          (<["valid_batches" := OOpaque]>
             (<["train_batches" := OOpaque]>
                (<["test" := OFrame test]>
                   (<["valid" := OFrame valid]>
                      (<["train" := OFrame train]>
                         (<["config" := OValue config]> module_globals)))))))).

(** ** More installations: manifests and configurations that go wrong *)

Module Fixture2.

(** A manifest without a ['path'] column, one with an empty path cell and
    one without rows. *)
Definition manifest_no_path : DataFrame :=
{| df_rows := 1; df_columns := map (fun name => (name, [VFloat 1])) labels |}.

Definition manifest_nan_path : DataFrame :=
{| df_rows := 2;
   df_columns :=
     ("path", [VStr "p/a.png"; VNaN])
       :: map (fun name => (name, [VFloat 1; VFloat 0])) labels |}.

Definition framework : Framework :=
{| Rng := @Rng Fixture.framework;
   json_loads := @json_loads Fixture.framework;
   csv_parse := fun text =>
     if String.eqb text "no-path" then Ok manifest_no_path
     else if String.eqb text "nan-path" then Ok manifest_nan_path
     else @csv_parse Fixture.framework text;
   valid_image_file := @valid_image_file Fixture.framework;
   load_img := @load_img Fixture.framework;
   np_random_initial := @np_random_initial Fixture.framework;
   np_random_seed := @np_random_seed Fixture.framework;
   np_random_uniform := @np_random_uniform Fixture.framework;
   np_random_random := @np_random_random Fixture.framework;
   np_random_permutation := @np_random_permutation Fixture.framework;
   affine_warp := @affine_warp Fixture.framework;
   flip_axis := @flip_axis Fixture.framework;
   scale_pixels := @scale_pixels Fixture.framework;
   keras_compile := @keras_compile Fixture.framework;
   keras_fit := @keras_fit Fixture.framework;
   keras_predict := @keras_predict Fixture.framework;
   pickle_dumps := @pickle_dumps Fixture.framework |}.


(** The installation of [Fixture] with another [test.csv]. *)
Definition world_with_test (test_csv : string) : World :=
{| fs := <["meta/test.csv" := File test_csv]> (fs Fixture.world); stdout := [] |}.



(** The installation of [Fixture] with a directory where the predictions
    are to be written, and the same when training is over. *)
Definition world_predictions_dir : World :=
{| fs := <["predictions" := Dir]> (fs Fixture.world); stdout := [] |}.

Definition world_predictions_dir_trained : World :=
{| fs := <["weights" := Dir]> (<["predictions" := Dir]> (fs Fixture.world));
   stdout := ["Num labels 14"; repr_list (repeat "binary_crossentropy" 14)] |}.

(** The installation of [Fixture] when the generators are built and when
    training is over. *)
Definition world_trained : World :=
{| fs := <["weights" := Dir]> (fs Fixture.world);
   stdout := ["Num labels 14"; repr_list (repeat "binary_crossentropy" 14)] |}.

(** [Fixture.world_prepared] after a second preparation. *)
Definition world_prepared_twice : World :=
{| fs := fs Fixture.world_prepared;
   stdout := [repr_list (repeat "binary_crossentropy" 14);
              repr_list (repeat "binary_crossentropy" 14)] |}.

End Fixture2.

(** ** Properties *)

(** *** Strings and paths *)

Local Arguments ascii_dec : simpl never.

Lemma prefix_append (a b : string) : String.prefix a (String.append a b) = true.
Proof.
  induction a as [|c a IH]; simpl.
  - now destruct b.
  - destruct (ascii_dec c c); [exact IH | congruence].
Qed.

Lemma is_empty_true (a : string) : PosixPath.is_empty a = true -> a = "".
Proof. destruct a; [reflexivity | discriminate]. Qed.

Lemma isabs_append (a b : string) :
  PosixPath.is_empty a = false ->
  PosixPath.isabs (String.append a b) = PosixPath.isabs a.
Proof.
  destruct a as [|c a]; [discriminate | intros _].
  unfold PosixPath.isabs, PosixPath.startswith, PosixPath.sep. simpl.
  destruct (ascii_dec "/" c); [| reflexivity].
  generalize (String.append a b). intros s. now destruct a, s.
Qed.

Lemma isabs_empty (a : string) :
  PosixPath.is_empty a = true -> PosixPath.isabs a = false.
Proof. intros H. apply is_empty_true in H. now subst. Qed.

Lemma join_absolute (a b : string) :
  PosixPath.isabs b = true -> PosixPath.join a b = b.
Proof.
  intros H. unfold PosixPath.join. unfold PosixPath.isabs in H. now rewrite H.
Qed.

Lemma join_relative (a b : string) :
  PosixPath.isabs b = false ->
  PosixPath.join a b =
    if PosixPath.is_empty a || PosixPath.endswith_sep a then String.append a b
    else String.append a (String.append PosixPath.sep b).
Proof.
  intros H. unfold PosixPath.join. unfold PosixPath.isabs in H. now rewrite H.
Qed.

Lemma isabs_join (a b : string) :
  PosixPath.isabs (PosixPath.join a b) = PosixPath.isabs b || PosixPath.isabs a.
Proof.
  destruct (PosixPath.isabs b) eqn:Hb.
  - now rewrite join_absolute, Hb.
  - rewrite join_relative by exact Hb. simpl.
    destruct (PosixPath.is_empty a) eqn:Ha; simpl.
    + apply is_empty_true in Ha. subst a. simpl. exact Hb.
    + destruct (PosixPath.endswith_sep a); now apply isabs_append.
Qed.

Lemma prefix_join (a b : string) :
  PosixPath.isabs b = false -> String.prefix a (PosixPath.join a b) = true.
Proof.
  intros Hb. rewrite join_relative by exact Hb.
  destruct (PosixPath.is_empty a || PosixPath.endswith_sep a); apply prefix_append.
Qed.

(** *** The monad *)

Lemma bind_ok_inv {A B : Type} (c : M A) (k : A -> M B) w b w' :
  bind c k w = (Ok b, w') ->
  exists a w1, c w = (Ok a, w1) /\ k a w1 = (Ok b, w').
Proof.
  unfold bind. destruct (c w) as [[a|e] w1]; [eauto | discriminate].
Qed.

Lemma bind_raise {A B : Type} (c : M A) (k : A -> M B) w e w' :
  c w = (Raise e, w') -> bind c k w = (Raise e, w').
Proof. unfold bind. now intros ->. Qed.

Lemma bind_ok {A B : Type} (c : M A) (k : A -> M B) w a w' :
  c w = (Ok a, w') -> bind c k w = k a w'.
Proof. unfold bind. now intros ->. Qed.

Lemma lift_ok_inv {A : Type} (r : result A) w a w' :
  lift r w = (Ok a, w') -> r = Ok a /\ w' = w.
Proof. unfold lift. intros [= -> ->]. auto. Qed.

Lemma read_file_ok_inv path w text w' :
  read_file path w = (Ok text, w') -> fs w !! path = Some (File text) /\ w' = w.
Proof.
  unfold read_file. destruct (fs w !! path) as [[content|]|]; intros [= <- <-]; auto.
Qed.

Lemma read_file_world path w r w' : read_file path w = (r, w') -> w' = w.
Proof.
  unfold read_file. destruct (fs w !! path) as [[content|]|]; now intros [= _ <-].
Qed.

Lemma read_csv_world {F : Framework} path w r w' :
  read_csv path w = (r, w') -> w' = w.
Proof.
  unfold read_csv, bind, lift. destruct (fspath path) as [p|e]; [| now intros [= _ <-]].
  destruct (read_file p w) as [[text|e] w1] eqn:Hr; apply read_file_world in Hr; subst w1;
    now intros [= _ <-].
Qed.

(** *** Lists and tables *)

Lemma mapM_result_Forall2 {A B : Type} (f : A -> result B) (l : list A) (l' : list B) :
  mapM_result f l = Ok l' -> Forall2 (fun x y => f x = Ok y) l l'.
Proof.
  revert l'. induction l as [|x l IH]; simpl; intros l' H.
  - injection H as <-. constructor.
  - destruct (f x) as [y|e] eqn:Hx; [simpl in H | discriminate].
    destruct (mapM_result f l) as [ys|e]; [simpl in H | discriminate].
    injection H as <-. constructor; auto.
Qed.

Lemma mapM_result_length {A B : Type} (f : A -> result B) (l : list A) (l' : list B) :
  mapM_result f l = Ok l' -> length l' = length l.
Proof.
  intros H. apply mapM_result_Forall2 in H. symmetry. eapply Forall2_length, H.
Qed.

Lemma mapM_result_total {A B : Type} (f : A -> result B) (g : A -> B) (l : list A) :
  (forall x, In x l -> f x = Ok (g x)) -> mapM_result f l = Ok (map g l).
Proof.
  induction l as [|x l IH]; simpl; intros H; [reflexivity |].
  rewrite (H x) by auto. simpl. rewrite IH by auto. reflexivity.
Qed.

Lemma assoc_get_set {A : Type} (k : string) (v : A) (l : list (string * A)) :
  assoc_get k (assoc_set k v l) = Some v.
Proof.
  induction l as [|[k' v'] l IH]; simpl.
  - now rewrite String.eqb_refl.
  - destruct (String.eqb k k') eqn:E; simpl.
    + now rewrite String.eqb_refl.
    + now rewrite E.
Qed.

Lemma df_getitem_setitem (df : DataFrame) (name : string) (col : list value) :
  df_getitem (df_setitem df name col) name = Ok col.
Proof. unfold df_getitem, df_setitem. simpl. now rewrite assoc_get_set. Qed.

(** *** Loading the manifests *)

Lemma modify_paths_ok_inv (base : string) (x y : value) :
  modify_paths (VStr base) x = Ok y ->
  exists rel, x = VStr rel /\ y = VStr (PosixPath.join base rel).
Proof.
  unfold modify_paths, os_path_join. simpl.
  destruct x; simpl; try discriminate. intros [= <-]. eauto.
Qed.

Lemma rewrite_paths_spec (base : string) (df0 df : DataFrame) :
  rewrite_paths (VStr base) df0 = Ok df -> frame_rewritten base df0 df.
Proof.
  unfold rewrite_paths, series_apply. intros H.
  destruct (df_getitem df0 "path") as [col0|e] eqn:H0; [simpl in H | discriminate].
  destruct (mapM_result _ col0) as [col|e] eqn:Hm; [simpl in H | discriminate].
  injection H as <-. exists col0, col. split; [exact H0 |].
  split; [apply df_getitem_setitem |].
  apply mapM_result_Forall2 in Hm.
  eapply Forall2_impl; [exact Hm |]. intros x y Hxy. simpl in Hxy.
  apply modify_paths_ok_inv in Hxy as (rel & -> & ->).
  exists rel. split; [reflexivity |]. split; [reflexivity |].
  intros Hbase Hrel. split.
  - rewrite isabs_join. now rewrite Hbase, Hrel.
  - now apply prefix_join.
Qed.

Lemma load_datasets_inv {F : Framework} config w train valid test w' :
  load_datasets config w = (Ok (train, valid, test), w') ->
  exists csv_base image_base p1 p2 p3 train0 valid0 test0,
    getitem config "META_BASE_PATH" = Ok csv_base /\
    getitem config "IMAGE_BASE_PATH" = Ok image_base /\
    os_path_join csv_base (VStr "train.csv") = Ok p1 /\
    os_path_join csv_base (VStr "valid.csv") = Ok p2 /\
    os_path_join csv_base (VStr "test.csv") = Ok p3 /\
    read_csv p1 w = (Ok train0, w) /\
    read_csv p2 w = (Ok valid0, w) /\
    read_csv p3 w = (Ok test0, w) /\
    rewrite_paths image_base train0 = Ok train /\
    rewrite_paths image_base valid0 = Ok valid /\
    rewrite_paths image_base test0 = Ok test /\
    w' = w.
Proof.
  unfold load_datasets. intros H.
  apply bind_ok_inv in H as (csv_base & w1 & H1 & H). apply lift_ok_inv in H1 as [H1 ->].
  apply bind_ok_inv in H as (image_base & w1 & H2 & H). apply lift_ok_inv in H2 as [H2 ->].
  apply bind_ok_inv in H as (p1 & w1 & H3 & H). apply lift_ok_inv in H3 as [H3 ->].
  apply bind_ok_inv in H as (train0 & w1 & H4 & H).
  pose proof (read_csv_world _ _ _ _ H4) as ->.
  apply bind_ok_inv in H as (p2 & w1 & H5 & H). apply lift_ok_inv in H5 as [H5 ->].
  apply bind_ok_inv in H as (valid0 & w1 & H6 & H).
  pose proof (read_csv_world _ _ _ _ H6) as ->.
  apply bind_ok_inv in H as (p3 & w1 & H7 & H). apply lift_ok_inv in H7 as [H7 ->].
  apply bind_ok_inv in H as (test0 & w1 & H8 & H).
  pose proof (read_csv_world _ _ _ _ H8) as ->.
  apply bind_ok_inv in H as (tr & w1 & H9 & H). apply lift_ok_inv in H9 as [H9 ->].
  apply bind_ok_inv in H as (va & w1 & H10 & H). apply lift_ok_inv in H10 as [H10 ->].
  apply bind_ok_inv in H as (te & w1 & H11 & H). apply lift_ok_inv in H11 as [H11 ->].
  unfold ret in H. injection H as -> -> -> ->.
  exists csv_base, image_base, p1, p2, p3, train0, valid0, test0. repeat split; assumption.
Qed.

(** C1 (as amended).  After [load_datasets], the ['path'] value of every row
    of the three manifests is [os.path.join] of the configured
    [IMAGE_BASE_PATH] and the row's path as read, row by row; when the base
    is absolute and the row's path is relative, that value is an absolute
    path that begins with the base. *)
Theorem load_datasets_rewrites_paths {F : Framework} config w train valid test w' base :
  load_datasets config w = (Ok (train, valid, test), w') ->
  getitem config "IMAGE_BASE_PATH" = Ok (VStr base) ->
  exists csv_base train0 valid0 test0,
    getitem config "META_BASE_PATH" = Ok (VStr csv_base) /\
    read_csv (VStr (PosixPath.join csv_base "train.csv")) w = (Ok train0, w) /\
    read_csv (VStr (PosixPath.join csv_base "valid.csv")) w = (Ok valid0, w) /\
    read_csv (VStr (PosixPath.join csv_base "test.csv")) w = (Ok test0, w) /\
    frame_rewritten base train0 train /\
    frame_rewritten base valid0 valid /\
    frame_rewritten base test0 test.
Proof.
  intros H Hbase.
  apply load_datasets_inv in H
    as (cb & ib & p1 & p2 & p3 & train0 & valid0 & test0
        & Hcb & Hib & Hp1 & Hp2 & Hp3 & Hr1 & Hr2 & Hr3 & Hw1 & Hw2 & Hw3 & _).
  rewrite Hbase in Hib. injection Hib as <-.
  destruct cb; try discriminate Hp1.
  unfold os_path_join in Hp1, Hp2, Hp3. simpl in Hp1, Hp2, Hp3.
  injection Hp1 as <-. injection Hp2 as <-. injection Hp3 as <-.
  exists s, train0, valid0, test0.
  repeat split; auto using rewrite_paths_spec.
Qed.

Lemma load_datasets_rewrites_paths_witness :
  exists csv_base train0 valid0 test0,
    getitem Fixture.config "META_BASE_PATH" = Ok (VStr csv_base) /\
    @read_csv Fixture.framework (VStr (PosixPath.join csv_base "train.csv")) Fixture.world
      = (Ok train0, Fixture.world) /\
    @read_csv Fixture.framework (VStr (PosixPath.join csv_base "valid.csv")) Fixture.world
      = (Ok valid0, Fixture.world) /\
    @read_csv Fixture.framework (VStr (PosixPath.join csv_base "test.csv")) Fixture.world
      = (Ok test0, Fixture.world) /\
    frame_rewritten "/data/images" train0 Fixture.loaded /\
    frame_rewritten "/data/images" valid0 Fixture.loaded /\
    frame_rewritten "/data/images" test0 Fixture.loaded.
Proof.
  apply (@load_datasets_rewrites_paths Fixture.framework Fixture.config Fixture.world
           Fixture.loaded Fixture.loaded Fixture.loaded Fixture.world "/data/images").
  - vm_compute. reflexivity.
  - vm_compute. reflexivity.
Defined.

(** C1 as the specification states it fails: with a relative
    [IMAGE_BASE_PATH] the rewritten paths are relative, and a manifest path
    that is already absolute is left outside the base. *)
Lemma paths_absolute_under_base_fails :
  ~ @paths_absolute_under_base Fixture.framework
      (Fixture.config_with "images" "weights") Fixture.world /\
  ~ @paths_absolute_under_base Fixture.framework
      Fixture.config (Fixture.world_with "manifest-abs").
Proof.
  split; intros H.
  - assert (E : @load_datasets Fixture.framework
                  (Fixture.config_with "images" "weights") Fixture.world
                = (Ok (Fixture.loaded_relative, Fixture.loaded_relative,
                       Fixture.loaded_relative), Fixture.world))
      by (vm_compute; reflexivity).
    destruct (H _ _ _ _ "images" E eq_refl Fixture.loaded_relative
                (map VStr ["images/p/a.png"; "images/p/b.png"; "images/p/c.png"])
                (VStr "images/p/a.png"))
      as (s & Hs & Habs & _); [left; reflexivity | reflexivity | left; reflexivity |].
    injection Hs as <-. discriminate Habs.
  - assert (E : @load_datasets Fixture.framework
                  Fixture.config (Fixture.world_with "manifest-abs")
                = (Ok (Fixture.loaded_abs, Fixture.loaded, Fixture.loaded),
                   Fixture.world_with "manifest-abs"))
      by (vm_compute; reflexivity).
    destruct (H _ _ _ _ "/data/images" E eq_refl Fixture.loaded_abs
                (map VStr ["/mnt/a.png"; "/data/images/p/b.png"])
                (VStr "/mnt/a.png"))
      as (s & Hs & _ & Hpre); [left; reflexivity | reflexivity | left; reflexivity |].
    injection Hs as <-. discriminate Hpre.
Qed.

(** C10 (as amended).  [modify_paths] returns [os.path.join] of its two
    arguments; a [relative_path] that is absolute is returned unchanged,
    whatever the base; and for a relative base and a [relative_path] that
    is not absolute the result is not absolute. *)
Theorem modify_paths_is_join (base_path relative_path : string) :
  modify_paths (VStr base_path) (VStr relative_path)
    = Ok (VStr (PosixPath.join base_path relative_path)) /\
  (PosixPath.isabs relative_path = true ->
   PosixPath.join base_path relative_path = relative_path) /\
  (PosixPath.isabs base_path = false ->
   PosixPath.isabs relative_path = false ->
   PosixPath.isabs (PosixPath.join base_path relative_path) = false).
Proof.
  split; [reflexivity |]. split.
  - apply join_absolute.
  - intros Ha Hb. rewrite isabs_join. now rewrite Ha, Hb.
Qed.

Lemma modify_paths_is_join_witness :
  PosixPath.join "/data/images" "/mnt/a.png" = "/mnt/a.png" /\
  PosixPath.isabs (PosixPath.join "images" "p/a.png") = false.
Proof.
  split.
  - apply (proj1 (proj2 (modify_paths_is_join "/data/images" "/mnt/a.png"))).
    reflexivity.
  - apply (proj2 (proj2 (modify_paths_is_join "images" "p/a.png"))); reflexivity.
Defined.

(** C10 as stated fails in its last clause: a relative base with a
    [relative_path] that is absolute gives an absolute result. *)
Lemma relative_base_gives_relative_path_fails :
  ~ relative_base_gives_relative_path.
Proof.
  intros H.
  specialize (H "images" "/mnt/a.png" "/mnt/a.png" eq_refl eq_refl).
  discriminate H.
Qed.

(** *** The label transform *)

Lemma nd_column_length (a : ndarray2) (i : nat) (col : list value) :
  nd_column a i = Ok col -> length col = nd_rows a.
Proof.
  unfold nd_column, nd_rows. destruct (i <? nd_cols a)%nat; [| discriminate].
  intros [= <-]. apply length_map.
Qed.

Lemma split_heads_ok (batch_y : ndarray2) (n : nat) :
  (n <= nd_cols batch_y)%nat ->
  split_heads batch_y (VInt (Z.of_nat n))
    = Ok (map (fun i => map (fun row => nth i row VNaN) (nd_data batch_y)) (seq 0 n)).
Proof.
  intros Hn. unfold split_heads, py_range. simpl. rewrite Nat2Z.id.
  apply mapM_result_total. intros i Hi. apply in_seq in Hi.
  unfold nd_column. destruct (Nat.ltb_spec i (nd_cols batch_y)); [reflexivity | lia].
Qed.

(** C2.  For every batch [(batch_x, batch_y)] the wrapped iterator yields,
    where [batch_y] has at least [num_classes] columns, [generator_wrapper]
    yields [(batch_x, heads)]: [heads] has exactly [num_classes] entries,
    entry [i] is column [i] of [batch_y], and each entry has as many
    elements as [batch_y] has rows. *)
Theorem generator_wrapper_yields_heads (g : generator raw_batch) (num_classes : nat)
    (s s' : gen_state g) (batch_x : list Image) (batch_y : ndarray2) :
  gen_next g s = GYield (batch_x, batch_y) s' ->
  (num_classes <= nd_cols batch_y)%nat ->
  exists heads,
    gen_next (generator_wrapper g (VInt (Z.of_nat num_classes))) s
      = GYield (batch_x, heads) s' /\
    length heads = num_classes /\
    Forall (fun col => length col = nd_rows batch_y) heads /\
    forall i, (i < num_classes)%nat ->
      exists col, heads !! i = Some col /\ nd_column batch_y i = Ok col.
Proof.
  intros Hnext Hn.
  exists (map (fun i => map (fun row => nth i row VNaN) (nd_data batch_y)) (seq 0 num_classes)).
  split; [| split; [| split]].
  - simpl. rewrite Hnext. now rewrite split_heads_ok.
  - now rewrite length_map, length_seq.
  - apply Forall_forall. intros col Hcol. apply list_elem_of_In, in_map_iff in Hcol.
    destruct Hcol as (i & <- & _). apply length_map.
  - intros i Hi. eexists. split.
    + rewrite list_lookup_fmap, lookup_seq_lt by exact Hi. reflexivity.
    + unfold nd_column. destruct (Nat.ltb_spec i (nd_cols batch_y)); [reflexivity | lia].
Qed.

Lemma generator_wrapper_yields_heads_witness :
  exists heads,
    gen_next (generator_wrapper
                (gen_of_list [(Fixture.batch_x, Fixture.batch_y)]) (VInt (Z.of_nat 2)))
      [(Fixture.batch_x, Fixture.batch_y)]
      = GYield (Fixture.batch_x, heads) [] /\
    length heads = 2%nat /\
    Forall (fun col => length col = nd_rows Fixture.batch_y) heads /\
    forall i, (i < 2)%nat ->
      exists col, heads !! i = Some col /\ nd_column Fixture.batch_y i = Ok col.
Proof.
  apply (generator_wrapper_yields_heads
           (gen_of_list [(Fixture.batch_x, Fixture.batch_y)]) 2
           [(Fixture.batch_x, Fixture.batch_y)] [] Fixture.batch_x Fixture.batch_y).
  - reflexivity.
  - simpl. lia.
Defined.

(** *** The model graph *)

Lemma add_heads_fold (x : tensor) (r : list nat) (acc : list tensor) (uid : nat) :
  fold_left
    (fun (acc : list tensor * nat) (_ : nat) =>
       let (output, uid) := acc in
       ((output ++ [Apply (new_layer uid (Dense 1 "sigmoid")) x])%list, S uid))
    r (acc, uid)
  = ((acc ++ map (fun i => Apply (new_layer (uid + i) (Dense 1 "sigmoid")) x)
               (seq 0 (length r)))%list,
     (uid + length r)%nat).
Proof.
  revert acc uid. induction r as [|a r IH]; intros acc uid; simpl.
  - now rewrite app_nil_r, Nat.add_0_r.
  - rewrite IH. rewrite <- app_assoc. simpl. rewrite Nat.add_0_r.
    rewrite <- seq_shift, map_map. f_equal; [| lia].
    f_equal. f_equal. apply map_ext. intros i. now rewrite Nat.add_succ_r.
Qed.

Lemma add_heads_map (x : tensor) (r : list nat) (uid : nat) :
  add_heads x r uid
  = map (fun i => Apply (new_layer (uid + i) (Dense 1 "sigmoid")) x) (seq 0 (length r)).
Proof. unfold add_heads. now rewrite add_heads_fold. Qed.

(** C3.  For every class count, [get_model] builds a model with exactly
    that many outputs; each is produced by a [Dense(1, 'sigmoid')] layer of
    its own, so it is one unit wide, and each is that layer called on the
    same tensor: the backbone's output through [Dense(512, 'relu')] and
    [Dropout(0.3)]. *)
Theorem get_model_heads (num_classes : nat) :
  exists m,
    get_model (VInt (Z.of_nat num_classes)) = Ok m /\
    length (outputs m) = num_classes /\
    Forall (fun t =>
              (exists uid, producer t = Some (new_layer uid (Dense 1 "sigmoid"))) /\
              last_axis t = Some 1 /\
              fed_from t = Some trunk)
           (outputs m) /\
    NoDup (map producer (outputs m)) /\
    trunk = Apply (new_layer 1 (Dropout (3 # 10)))
              (Apply (new_layer 0 (Dense 512 "relu")) (BackboneOutput "imagenet" false)).
Proof.
  eexists. split; [reflexivity |]. simpl outputs.
  rewrite add_heads_map, length_seq, Nat2Z.id.
  split; [now rewrite length_map, length_seq |].
  split; [| split; [| reflexivity]].
  - apply Forall_forall. intros t Ht. apply list_elem_of_In, in_map_iff in Ht.
    destruct Ht as (i & <- & _). simpl. eauto.
  - rewrite map_map. simpl.
    assert (Hinj : Inj eq eq (fun i : nat => Some (new_layer (S (S i)) (Dense 1 "sigmoid"))))
      by (intros i j [= H]; exact H).
    apply (NoDup_fmap_2 _), NoDup_seq.
Qed.

(** *** The batch iterators *)

Lemma flow_from_dataframe_inv {F : Framework} g df x y size shuf sd bs it :
  flow_from_dataframe g df x y size shuf sd bs = Ok it ->
  exists paths names cols,
    df_getitem df x = Ok paths /\
    mapM_result as_str paths = Ok names /\
    mapM_result (df_getitem df) y = Ok cols /\
    it = {| image_data_generator := g;
            x_col := x;
            y_col := y;
            class_mode := "raw";
            target_size := size;
            shuffle := shuf;
            seed := sd;
            batch_size := bs;
            filepaths :=
              map fst (List.filter (fun row => valid_image_file (fst row))
                         (combine names (map (label_row cols) (seq 0 (length names)))));
            targets :=
              {| nd_cols := length y;
                 nd_data :=
                   map snd (List.filter (fun row => valid_image_file (fst row))
                              (combine names
                                 (map (label_row cols) (seq 0 (length names))))) |} |}.
Proof.
  unfold flow_from_dataframe. intros H.
  destruct (df_getitem df x) as [paths|e] eqn:E1; [simpl in H | discriminate].
  destruct (mapM_result as_str paths) as [names|e] eqn:E2; [simpl in H | discriminate].
  destruct (mapM_result (df_getitem df) y) as [cols|e] eqn:E3; [simpl in H | discriminate].
  injection H as <-. exists paths, names, cols. repeat split; assumption.
Qed.

Lemma flow_batches_inv {F : Framework} train valid test config w b nc w' :
  flow_batches train valid test config w = (Ok (b, nc), w') ->
  exists HEIGHT WIDTH BATCH_SIZE TEST_BATCH,
    getitem config "IMG_HEIGHT" = Ok HEIGHT /\
    getitem config "IMG_WIDTH" = Ok WIDTH /\
    getitem config "BATCH_SIZE" = Ok BATCH_SIZE /\
    getitem config "TEST_BATCH" = Ok TEST_BATCH /\
    getitem config "NUM_CLASSES" = Ok nc /\
    flow_from_dataframe train_gen train "path" labels (HEIGHT, WIDTH)
      true (Some 1) BATCH_SIZE = Ok (train_batches b) /\
    flow_from_dataframe validate_gen valid "path" labels (HEIGHT, WIDTH)
      true None BATCH_SIZE = Ok (validate_batches b) /\
    flow_from_dataframe validate_gen test "path" labels (HEIGHT, WIDTH)
      false None TEST_BATCH = Ok (test_batches b).
Proof.
  unfold flow_batches. intros H.
  apply bind_ok_inv in H as (HEIGHT & w1 & H1 & H). apply lift_ok_inv in H1 as [H1 ->].
  apply bind_ok_inv in H as (WIDTH & w1 & H2 & H). apply lift_ok_inv in H2 as [H2 ->].
  apply bind_ok_inv in H as (BATCH_SIZE & w1 & H3 & H). apply lift_ok_inv in H3 as [H3 ->].
  apply bind_ok_inv in H as (TEST_BATCH & w1 & H4 & H). apply lift_ok_inv in H4 as [H4 ->].
  apply bind_ok_inv in H as (nc' & w1 & H5 & H). apply lift_ok_inv in H5 as [H5 ->].
  apply bind_ok_inv in H as ([] & w1 & _ & H).
  apply bind_ok_inv in H as (it1 & w2 & H6 & H). apply lift_ok_inv in H6 as [H6 ->].
  apply bind_ok_inv in H as (it2 & w2 & H7 & H). apply lift_ok_inv in H7 as [H7 ->].
  apply bind_ok_inv in H as (it3 & w2 & H8 & H). apply lift_ok_inv in H8 as [H8 ->].
  unfold ret in H. injection H as <- <- <-. simpl.
  exists HEIGHT, WIDTH, BATCH_SIZE, TEST_BATCH. repeat split; assumption.
Qed.

Lemma labels_value :
  labels =
    ["Atelectasis"; "Cardiomegaly"; "Consolidation"; "Edema";
     "Enlarged Cardiomediastinum"; "Fracture"; "Lung Lesion"; "Lung Opacity";
     "No Finding"; "Pleural Effusion"; "Pleural Other"; "Pneumonia";
     "Pneumothorax"; "Support Devices"].
Proof. reflexivity. Qed.

Lemma mapM_result_In {A B : Type} (f : A -> result B) (l : list A) (l' : list B) (x : A) :
  mapM_result f l = Ok l' -> In x l -> exists y, f x = Ok y.
Proof.
  intros H Hx. apply mapM_result_Forall2 in H.
  induction H as [|a b l l' Hab _ IH]; [contradiction |].
  destruct Hx as [<- | Hx]; eauto.
Qed.

Lemma flow_from_dataframe_columns {F : Framework} g df x y size shuf sd bs it name :
  flow_from_dataframe g df x y size shuf sd bs = Ok it ->
  In name y -> exists col, df_getitem df name = Ok col.
Proof.
  intros H Hn. apply flow_from_dataframe_inv in H as (paths & names & cols & _ & _ & Hc & _).
  eapply mapM_result_In; eassumption.
Qed.

(** C4.  The three batch iterators read their labels from the same fixed
    list of 14 distinct finding names, one label column per finding: the
    label array of each has 14 columns, and an iterator is only built over
    a manifest that has a column of each of these names. *)
Theorem label_columns_fixed {F : Framework} train valid test config w b nc w' :
  flow_batches train valid test config w = (Ok (b, nc), w') ->
  length labels = 14%nat /\
  NoDup labels /\
  labels =
    ["Atelectasis"; "Cardiomegaly"; "Consolidation"; "Edema";
     "Enlarged Cardiomediastinum"; "Fracture"; "Lung Lesion"; "Lung Opacity";
     "No Finding"; "Pleural Effusion"; "Pleural Other"; "Pneumonia";
     "Pneumothorax"; "Support Devices"] /\
  Forall (fun it => y_col it = labels /\ nd_cols (targets it) = 14%nat)
    [train_batches b; validate_batches b; test_batches b] /\
  forall name, In name labels ->
    Forall (fun df => exists col, df_getitem df name = Ok col) [train; valid; test].
Proof.
  intros H.
  apply flow_batches_inv in H as (HT & WD & BS & TB & _ & _ & _ & _ & _ & H1 & H2 & H3).
  split; [reflexivity |].
  split; [rewrite labels_value; apply (bool_decide_unpack _); vm_compute; exact I |].
  split; [apply labels_value |].
  split.
  - repeat constructor;
      match goal with
      | |- y_col ?it = _ =>
          match goal with
          | Hf : flow_from_dataframe _ _ _ _ _ _ _ _ = Ok it |- _ =>
              apply flow_from_dataframe_inv in Hf as (? & ? & ? & _ & _ & _ & ->)
          end; reflexivity
      | |- nd_cols (targets ?it) = _ =>
          match goal with
          | Hf : flow_from_dataframe _ _ _ _ _ _ _ _ = Ok it |- _ =>
              apply flow_from_dataframe_inv in Hf as (? & ? & ? & _ & _ & _ & ->)
          end; reflexivity
      end.
  - intros name Hn. repeat constructor; eapply flow_from_dataframe_columns; eassumption.
Qed.

Lemma label_columns_fixed_witness :
  Forall (fun it => y_col it = labels /\ nd_cols (targets it) = 14%nat)
    [train_batches Fixture.flowed; validate_batches Fixture.flowed;
     test_batches Fixture.flowed] /\
  forall name, In name labels ->
    Forall (fun df => exists col, df_getitem df name = Ok col)
      [Fixture.loaded; Fixture.loaded; Fixture.loaded].
Proof.
  apply (@label_columns_fixed Fixture.framework Fixture.loaded Fixture.loaded
           Fixture.loaded Fixture.config Fixture.world Fixture.flowed (VInt 14)
           Fixture.world_flowed).
  vm_compute. reflexivity.
Defined.

(** *** The image pipeline *)






(** *** Preparing the training *)

Lemma bind_lift_ok {A B : Type} (a : A) (k : A -> M B) w :
  bind (lift (Ok a)) k w = k a w.
Proof. reflexivity. Qed.

Lemma bind_lift_raise {A B : Type} (e : exn) (k : A -> M B) w :
  bind (lift (@Raise A e)) k w = (Raise e, w).
Proof. reflexivity. Qed.

Lemma load_global_ok_inv (globals : gmap string pyobj) name obj :
  load_global globals name = Ok obj -> globals !! name = Some obj.
Proof. unfold load_global. destruct (globals !! name); now intros [= <-]. Qed.

Lemma os_makedirs_ok_inv path w u w' :
  os_makedirs path w = (Ok u, w') ->
  fs w !! path = None /\ fs w' = <[path := Dir]> (fs w) /\ stdout w' = stdout w.
Proof.
  unfold os_makedirs. destruct (PosixPath.is_empty path); [discriminate |].
  destruct (fs w !! path); [discriminate |]. intros [= _ <-]. auto.
Qed.

Lemma prepare_training_inv {F : Framework} globals model train_ds valid_ds config w ca fa w' :
  prepare_training globals model train_ds valid_ds config w = (Ok (ca, fa), w') ->
  exists BATCH_SIZE lr epochs weights_dir train valid train_len valid_len num_classes r,
    getitem config "BATCH_SIZE" = Ok BATCH_SIZE /\
    getitem config "INITIAL_LR" = Ok lr /\
    getitem config "MAX_EPOCHS" = Ok epochs /\
    getitem config "WEIGHTS_DIR" = Ok (VStr weights_dir) /\
    globals !! "train" = Some train /\
    py_len train = Ok train_len /\
    globals !! "valid" = Some valid /\
    py_len valid = Ok valid_len /\
    getitem config "NUM_CLASSES" = Ok num_classes /\
    py_range num_classes = Ok r /\
    ca = {| ca_optimizer := Adam lr;
            ca_loss := map (fun _ => "binary_crossentropy") r;
            ca_metrics := [Accuracy; AUC true] |} /\
    keras_compile model ca = Ok tt /\
    ceil_div train_len BATCH_SIZE = Ok (fa_steps_per_epoch fa) /\
    ceil_div valid_len BATCH_SIZE = Ok (fa_validation_steps fa) /\
    fa = {| fa_x := train_ds;
            fa_validation_data := valid_ds;
            fa_steps_per_epoch := fa_steps_per_epoch fa;
            fa_validation_steps := fa_validation_steps fa;
            fa_epochs := epochs;
            fa_shuffle := true;
            fa_callbacks :=
              [ReduceLROnPlateau "val_loss" "min" (1 # 10) 2 (1 # 1000000) 1;
               ModelCheckpoint (PosixPath.join weights_dir "model.hdf5")
                 "val_loss" "min" 1 true false;
               EarlyStopping "val_loss" "min" 4 true] |} /\
    fs w' = (if bool_decide (is_Some (fs w !! weights_dir)) then fs w
             else <[weights_dir := Dir]> (fs w)) /\
    stdout w' = (stdout w ++ [repr_list (ca_loss ca)])%list.
Proof.
  unfold prepare_training. intros H.
  apply bind_ok_inv in H as (BS & w1 & H1 & H). apply lift_ok_inv in H1 as [H1 ->].
  apply bind_ok_inv in H as (TB & w1 & H2 & H). apply lift_ok_inv in H2 as [H2 ->].
  apply bind_ok_inv in H as (lr & w1 & H3 & H). apply lift_ok_inv in H3 as [H3 ->].
  apply bind_ok_inv in H as (ep & w1 & H4 & H). apply lift_ok_inv in H4 as [H4 ->].
  apply bind_ok_inv in H as (wd & w1 & H5 & H). apply lift_ok_inv in H5 as [H5 ->].
  apply bind_ok_inv in H as (tr & w1 & H6 & H). apply lift_ok_inv in H6 as [H6 ->].
  apply bind_ok_inv in H as (n & w1 & H7 & H). apply lift_ok_inv in H7 as [H7 ->].
  apply bind_ok_inv in H as (te & w1 & H8 & H). apply lift_ok_inv in H8 as [H8 ->].
  apply bind_ok_inv in H as (va & w1 & H9 & H). apply lift_ok_inv in H9 as [H9 ->].
  apply bind_ok_inv in H as (m & w1 & H10 & H). apply lift_ok_inv in H10 as [H10 ->].
  apply bind_ok_inv in H as (ve & w1 & H11 & H). apply lift_ok_inv in H11 as [H11 ->].
  apply bind_ok_inv in H as (nc & w1 & H12 & H). apply lift_ok_inv in H12 as [H12 ->].
  apply bind_ok_inv in H as (r & w1 & H13 & H). apply lift_ok_inv in H13 as [H13 ->].
  apply bind_ok_inv in H as ([] & w1 & H14 & H).
  apply bind_ok_inv in H as ([] & w2 & H15 & H). apply lift_ok_inv in H15 as [H15 ->].
  apply bind_ok_inv in H as (d & w2 & H16 & H). apply lift_ok_inv in H16 as [H16 ->].
  apply bind_ok_inv in H as (present & w2 & H17 & H).
  apply bind_ok_inv in H as ([] & w3 & H18 & H).
  unfold ret in H. injection H as <- <- <-.
  destruct wd; try discriminate H16. simpl in H16. injection H16 as ->.
  apply load_global_ok_inv in H6, H9.
  unfold print in H14. injection H14 as <-.
  unfold os_path_exists in H17. simpl in H17. injection H17 as <- <-.
  exists BS, lr, ep, d, tr, va, n, m, nc, r. simpl.
  repeat (split; [assumption || reflexivity |]).
  destruct (bool_decide (is_Some (fs w !! d))); simpl in H18.
  - unfold ret in H18. injection H18 as <-. split; reflexivity.
  - apply os_makedirs_ok_inv in H18 as (_ & Hfs & Hout). simpl in Hfs, Hout.
    split; assumption.
Qed.





(** *** Errors while loading *)

Lemma load_config_file {F : Framework} path w text :
  fs w !! path = Some (File text) -> load_config path w = (json_loads text, w).
Proof.
  intros H. unfold load_config, bind, read_file, lift. rewrite H.
  now destruct (json_loads text).
Qed.

Lemma read_csv_file {F : Framework} path w text :
  fs w !! path = Some (File text) -> read_csv (VStr path) w = (csv_parse text, w).
Proof.
  intros H. unfold read_csv, bind, read_file, lift. simpl. rewrite H.
  now destruct (csv_parse text).
Qed.

Lemma load_datasets_raise {F : Framework} config w csv_base image_base e :
  getitem config "META_BASE_PATH" = Ok (VStr csv_base) ->
  getitem config "IMAGE_BASE_PATH" = Ok image_base ->
  first_error
    (map (fun name => fst (read_csv (VStr (PosixPath.join csv_base name)) w))
       ["train.csv"; "valid.csv"; "test.csv"]) = Some e ->
  load_datasets config w = (Raise e, w).
Proof.
  intros H1 H2 He. unfold load_datasets.
  rewrite H1, bind_lift_ok, H2, bind_lift_ok. simpl in He.
  unfold os_path_join. cbn [fspath rbind]. rewrite bind_lift_ok.
  destruct (read_csv (VStr (PosixPath.join csv_base "train.csv")) w)
    as [[train|e1] w1] eqn:R1; pose proof (read_csv_world _ _ _ _ R1) as ->;
    simpl in He.
  2: { injection He as ->. now apply bind_raise. }
  rewrite (bind_ok _ _ _ _ _ R1), bind_lift_ok.
  destruct (read_csv (VStr (PosixPath.join csv_base "valid.csv")) w)
    as [[valid|e2] w2] eqn:R2; pose proof (read_csv_world _ _ _ _ R2) as ->;
    simpl in He.
  2: { injection He as ->. now apply bind_raise. }
  rewrite (bind_ok _ _ _ _ _ R2), bind_lift_ok.
  destruct (read_csv (VStr (PosixPath.join csv_base "test.csv")) w)
    as [[test|e3] w3] eqn:R3; pose proof (read_csv_world _ _ _ _ R3) as ->;
    simpl in He.
  2: { injection He as ->. now apply bind_raise. }
  discriminate He.
Qed.

(** C8.  [load_config] and [load_datasets] handle no error.  A missing
    configuration file is the [FileNotFoundError] of [open], and for a file
    that is there the result is whatever the JSON parser returns or
    raises; the same holds for each manifest and the CSV parser.
    [load_datasets] raises the error of the first manifest that fails to
    load, and a configuration without the two path keys is the [KeyError]
    of the lookup.  In the [__main__] block either error ends the run. *)
Theorem loading_errors_propagate {F : Framework} :
  (forall path w,
     fs w !! path = None ->
     load_config path w = (Raise (FileNotFoundError path), w)) /\
  (forall path w text,
     fs w !! path = Some (File text) ->
     load_config path w = (json_loads text, w)) /\
  (forall path w,
     fs w !! path = None ->
     read_csv (VStr path) w = (Raise (FileNotFoundError path), w)) /\
  (forall path w text,
     fs w !! path = Some (File text) ->
     read_csv (VStr path) w = (csv_parse text, w)) /\
  (forall config w e,
     first_error [getitem config "META_BASE_PATH"; getitem config "IMAGE_BASE_PATH"]
       = Some e ->
     load_datasets config w = (Raise e, w)) /\
  (forall config w csv_base image_base e,
     getitem config "META_BASE_PATH" = Ok (VStr csv_base) ->
     getitem config "IMAGE_BASE_PATH" = Ok image_base ->
     first_error
       (map (fun name => fst (read_csv (VStr (PosixPath.join csv_base name)) w))
          ["train.csv"; "valid.csv"; "test.csv"]) = Some e ->
     load_datasets config w = (Raise e, w)) /\
  (forall w e w',
     load_config "config.json" w = (Raise e, w') -> main w = (Raise e, w')) /\
  (forall w config w1 e w',
     load_config "config.json" w = (Ok config, w1) ->
     load_datasets config w1 = (Raise e, w') ->
     main w = (Raise e, w')).
Proof.
  repeat split.
  - intros path w H. unfold load_config, bind, read_file. now rewrite H.
  - intros. now apply load_config_file.
  - intros path w H. unfold read_csv, bind, read_file, lift. simpl. now rewrite H.
  - intros. now apply read_csv_file.
  - intros config w e H. unfold load_datasets. simpl in H.
    destruct (getitem config "META_BASE_PATH") as [v1|e1].
    + destruct (getitem config "IMAGE_BASE_PATH") as [v2|e2]; [discriminate |].
      now injection H as ->.
    + now injection H as ->.
  - intros. eapply load_datasets_raise; eassumption.
  - intros w e w' H. unfold main. now apply bind_raise.
  - intros w config w1 e w' H1 H2. unfold main.
    rewrite (bind_ok _ _ _ _ _ H1). now apply bind_raise.
Qed.

Lemma loading_errors_propagate_witness :
  @main Fixture.framework Fixture.world_no_valid
    = (Raise (FileNotFoundError "meta/valid.csv"), Fixture.world_no_valid) /\
  @main Fixture.framework Fixture.world_bad_config
    = (Raise (JSONDecodeError "Expecting value"), Fixture.world_bad_config).
Proof.
  destruct (@loading_errors_propagate Fixture.framework)
    as (_ & _ & _ & _ & _ & _ & Hconfig & Hdata).
  split.
  - apply (Hdata Fixture.world_no_valid Fixture.config Fixture.world_no_valid);
      vm_compute; reflexivity.
  - apply Hconfig. vm_compute. reflexivity.
Defined.

(** *** Batches of an unshuffled iterator *)













Lemma mapM_as_str {F : Framework} (paths : list value) (names : list string) :
  mapM_result as_str paths = Ok names -> paths = map VStr names.
Proof.
  intros H. apply mapM_result_Forall2 in H.
  induction H as [|v name paths names Hv _ IH]; [reflexivity |].
  simpl. rewrite IH. f_equal. destruct v; try discriminate Hv. now injection Hv as ->.
Qed.

Lemma filter_all {A : Type} (f : A -> bool) (l : list A) :
  Forall (fun x => f x = true) l -> List.filter f l = l.
Proof.
  induction 1 as [|x l Hx _ IH]; simpl; [reflexivity |]. now rewrite Hx, IH.
Qed.

Lemma fst_combine {A B : Type} (l1 : list A) (l2 : list B) :
  length l1 = length l2 -> map fst (combine l1 l2) = l1.
Proof.
  revert l2. induction l1 as [|a l1 IH]; intros [|b l2] H; simpl in *;
    try discriminate; [reflexivity |]. f_equal. apply IH. lia.
Qed.

Lemma snd_combine {A B : Type} (l1 : list A) (l2 : list B) :
  length l1 = length l2 -> map snd (combine l1 l2) = l2.
Proof.
  revert l2. induction l1 as [|a l1 IH]; intros [|b l2] H; simpl in *;
    try discriminate; [reflexivity |]. f_equal. apply IH. lia.
Qed.

(** An iterator over a manifest whose image files are all valid holds the
    rows of the manifest, in the manifest's order. *)
Lemma flow_keeps_valid_rows {F : Framework} g df x y size shuf sd bs it :
  flow_from_dataframe g df x y size shuf sd bs = Ok it ->
  exists names cols,
    df_getitem df x = Ok (map VStr names) /\
    mapM_result (df_getitem df) y = Ok cols /\
    (Forall (fun name => valid_image_file name = true) names ->
     filepaths it = names /\
     nd_data (targets it) = map (label_row cols) (seq 0 (length names))).
Proof.
  intros H. apply flow_from_dataframe_inv in H as (paths & names & cols & H1 & H2 & H3 & ->).
  apply mapM_as_str in H2. subst paths. exists names, cols.
  split; [exact H1 |]. split; [exact H3 |]. intros Hvalid. simpl.
  rewrite filter_all.
  - split; [apply fst_combine | apply snd_combine]; now rewrite length_map, length_seq.
  - apply Forall_forall. intros [name row] Hin. simpl.
    apply list_elem_of_In, in_combine_l in Hin.
    rewrite Forall_forall in Hvalid. apply Hvalid. now apply list_elem_of_In.
Qed.

(** *** The whole run *)










(** ** Further properties of the script *)

(** *** What [load_datasets] leaves alone *)

Lemma assoc_get_set_ne {A : Type} (k k' : string) (v : A) (l : list (string * A)) :
  k <> k' -> assoc_get k' (assoc_set k v l) = assoc_get k' l.
Proof.
  intros Hne. induction l as [|[k0 v0] l IH]; simpl.
  - destruct (String.eqb_spec k' k); [exfalso; congruence | reflexivity].
  - destruct (String.eqb_spec k k0) as [-> | Hk]; simpl.
    + destruct (String.eqb_spec k' k0); [exfalso; congruence | reflexivity].
    + destruct (String.eqb_spec k' k0); [reflexivity | exact IH].
Qed.

Lemma assoc_set_keys {A : Type} (k : string) (v v0 : A) (l : list (string * A)) :
  assoc_get k l = Some v0 -> map fst (assoc_set k v l) = map fst l.
Proof.
  induction l as [|[k0 v1] l IH]; simpl; [discriminate |].
  destruct (String.eqb_spec k k0) as [-> | Hk]; simpl; [reflexivity |].
  intros H. now rewrite IH.
Qed.

Lemma assoc_set_Forall {A : Type} (P : string * A -> Prop) (k : string) (v : A)
    (l : list (string * A)) :
  P (k, v) -> Forall P l -> Forall P (assoc_set k v l).
Proof.
  intros Hv. induction 1 as [|[k0 v0] l H0 Hl IH]; simpl.
  - repeat constructor. exact Hv.
  - destruct (String.eqb k k0); constructor; assumption.
Qed.

Lemma assoc_get_In {A : Type} (k : string) (v : A) (l : list (string * A)) :
  assoc_get k l = Some v -> In (k, v) l.
Proof.
  induction l as [|[k0 v0] l IH]; simpl; [discriminate |].
  destruct (String.eqb_spec k k0) as [<- | Hk].
  - intros [= ->]. now left.
  - intros Hl. right. now apply IH.
Qed.

Lemma rewrite_paths_frame (image_base : value) (df0 df : DataFrame) :
  rewrite_paths image_base df0 = Ok df ->
  df_rows df = df_rows df0 /\
  map fst (df_columns df) = map fst (df_columns df0) /\
  (forall name, name <> "path" -> df_getitem df name = df_getitem df0 name) /\
  (df_wf df0 -> df_wf df).
Proof.
  unfold rewrite_paths, series_apply. intros H.
  destruct (df_getitem df0 "path") as [col0|e] eqn:H0; [simpl in H | discriminate].
  destruct (mapM_result _ col0) as [col|e] eqn:Hm; [simpl in H | discriminate].
  injection H as <-. unfold df_getitem in H0.
  destruct (assoc_get "path" (df_columns df0)) as [c|] eqn:Hc; [| discriminate].
  injection H0 as ->.
  split; [reflexivity |]. split; [eapply assoc_set_keys; eassumption |]. split.
  - intros name Hne. unfold df_getitem, df_setitem. simpl.
    rewrite assoc_get_set_ne by congruence. reflexivity.
  - unfold df_wf, df_setitem. simpl. intros Hwf.
    apply assoc_set_Forall; [| exact Hwf]. simpl.
    rewrite (mapM_result_length _ _ _ Hm).
    rewrite Forall_forall in Hwf.
    apply (Hwf ("path", col0)). apply list_elem_of_In, assoc_get_In, Hc.
Qed.

(** X1.  [load_datasets] changes nothing but the cells of the ['path']
    column: each returned manifest has the rows, the column names in their
    order, and every other column of the manifest as read, columns of equal
    length stay so, and the world is left as it was. *)
Theorem load_datasets_keeps_other_columns {F : Framework}
    config w train valid test w' :
  load_datasets config w = (Ok (train, valid, test), w') ->
  w' = w /\
  exists csv_base train0 valid0 test0,
    getitem config "META_BASE_PATH" = Ok (VStr csv_base) /\
    read_csv (VStr (PosixPath.join csv_base "train.csv")) w = (Ok train0, w) /\
    read_csv (VStr (PosixPath.join csv_base "valid.csv")) w = (Ok valid0, w) /\
    read_csv (VStr (PosixPath.join csv_base "test.csv")) w = (Ok test0, w) /\
    Forall2 (fun old new =>
               df_rows new = df_rows old /\
               map fst (df_columns new) = map fst (df_columns old) /\
               (forall name, name <> "path" ->
                  df_getitem new name = df_getitem old name) /\
               (df_wf old -> df_wf new))
      [train0; valid0; test0] [train; valid; test].
Proof.
  intros H.
  apply load_datasets_inv in H
    as (cb & ib & p1 & p2 & p3 & train0 & valid0 & test0
        & Hcb & Hib & Hp1 & Hp2 & Hp3 & Hr1 & Hr2 & Hr3 & Hw1 & Hw2 & Hw3 & ->).
  split; [reflexivity |].
  destruct cb; try discriminate Hp1.
  unfold os_path_join in Hp1, Hp2, Hp3. simpl in Hp1, Hp2, Hp3.
  injection Hp1 as <-. injection Hp2 as <-. injection Hp3 as <-.
  exists s, train0, valid0, test0.
  repeat (split; [assumption |]).
  repeat constructor; eapply rewrite_paths_frame; eassumption.
Qed.

Lemma load_datasets_keeps_other_columns_witness :
  Fixture.world = Fixture.world /\
  exists csv_base train0 valid0 test0,
    getitem Fixture.config "META_BASE_PATH" = Ok (VStr csv_base) /\
    @read_csv Fixture.framework (VStr (PosixPath.join csv_base "train.csv")) Fixture.world
      = (Ok train0, Fixture.world) /\
    @read_csv Fixture.framework (VStr (PosixPath.join csv_base "valid.csv")) Fixture.world
      = (Ok valid0, Fixture.world) /\
    @read_csv Fixture.framework (VStr (PosixPath.join csv_base "test.csv")) Fixture.world
      = (Ok test0, Fixture.world) /\
    Forall2 (fun old new =>
               df_rows new = df_rows old /\
               map fst (df_columns new) = map fst (df_columns old) /\
               (forall name, name <> "path" ->
                  df_getitem new name = df_getitem old name) /\
               (df_wf old -> df_wf new))
      [train0; valid0; test0] [Fixture.loaded; Fixture.loaded; Fixture.loaded].
Proof.
  apply (@load_datasets_keeps_other_columns Fixture.framework Fixture.config
           Fixture.world Fixture.loaded Fixture.loaded Fixture.loaded Fixture.world).
  vm_compute. reflexivity.
Defined.

(** *** Manifests that cannot be rewritten *)

Lemma mapM_result_raise_type (base : string) (col : list value) :
  (exists v, In v col /\ forall s, v <> VStr s) ->
  exists what, mapM_result (fun x => modify_paths (VStr base) x) col = Raise (TypeError what).
Proof.
  induction col as [|x col IH]; intros (v & Hin & Hv); [contradiction |].
  simpl. destruct x as [| | | | |s| |];
    try (eexists; reflexivity).
  destruct Hin as [<- | Hin]; [now destruct (Hv s) |].
  destruct IH as [what Hw]; [eauto |].
  exists what. cbn [mapM_result].
  change (modify_paths (VStr base) (VStr s)) with (Ok (VStr (PosixPath.join base s))).
  cbn [rbind]. now rewrite Hw.
Qed.

(** X2.  The path column is rewritten only after all three manifests have
    been read, and [load_datasets] does not catch what goes wrong then: it
    raises the error of the first manifest, in the order train, valid,
    test, that cannot be rewritten.  A manifest without a ['path'] column
    is a [KeyError] for ['path'], and a path cell that is not a string
    (an empty cell) is a [TypeError]. *)
Theorem load_datasets_rewrite_errors {F : Framework}
    config w csv_base image_base train0 valid0 test0 e :
  getitem config "META_BASE_PATH" = Ok (VStr csv_base) ->
  getitem config "IMAGE_BASE_PATH" = Ok image_base ->
  read_csv (VStr (PosixPath.join csv_base "train.csv")) w = (Ok train0, w) ->
  read_csv (VStr (PosixPath.join csv_base "valid.csv")) w = (Ok valid0, w) ->
  read_csv (VStr (PosixPath.join csv_base "test.csv")) w = (Ok test0, w) ->
  first_error [rewrite_paths image_base train0; rewrite_paths image_base valid0;
               rewrite_paths image_base test0] = Some e ->
  load_datasets config w = (Raise e, w) /\
  (forall df, df_getitem df "path" = Raise (KeyError "path") ->
     rewrite_paths image_base df = Raise (KeyError "path")) /\
  (forall df base col,
     image_base = VStr base ->
     df_getitem df "path" = Ok col ->
     (exists v, In v col /\ forall s, v <> VStr s) ->
     exists what, rewrite_paths image_base df = Raise (TypeError what)).
Proof.
  intros H1 H2 R1 R2 R3 He. split; [| split].
  - unfold load_datasets.
    rewrite H1, bind_lift_ok, H2, bind_lift_ok.
    unfold os_path_join. cbn [fspath rbind]. rewrite bind_lift_ok.
    rewrite (bind_ok _ _ _ _ _ R1), bind_lift_ok.
    rewrite (bind_ok _ _ _ _ _ R2), bind_lift_ok.
    rewrite (bind_ok _ _ _ _ _ R3).
    simpl in He.
    destruct (rewrite_paths image_base train0) as [train|e1].
    2: { injection He as ->. reflexivity. }
    rewrite bind_lift_ok.
    destruct (rewrite_paths image_base valid0) as [valid|e2].
    2: { injection He as ->. reflexivity. }
    rewrite bind_lift_ok.
    destruct (rewrite_paths image_base test0) as [test|e3]; [discriminate |].
    injection He as ->. reflexivity.
  - intros df Hdf. unfold rewrite_paths. now rewrite Hdf.
  - intros df base col -> Hcol Hbad. unfold rewrite_paths, series_apply. rewrite Hcol.
    destruct (mapM_result_raise_type base col Hbad) as [what Hw].
    exists what. simpl. now rewrite Hw.
Qed.

Lemma load_datasets_rewrite_errors_witness :
  @load_datasets Fixture2.framework Fixture.config (Fixture2.world_with_test "no-path")
    = (Raise (KeyError "path"), Fixture2.world_with_test "no-path") /\
  exists what,
    @load_datasets Fixture2.framework Fixture.config (Fixture2.world_with_test "nan-path")
      = (Raise (TypeError what), Fixture2.world_with_test "nan-path").
Proof.
  split.
  - apply (@load_datasets_rewrite_errors Fixture2.framework Fixture.config
             (Fixture2.world_with_test "no-path") "meta" (VStr "/data/images")
             Fixture.manifest Fixture.manifest Fixture2.manifest_no_path
             (KeyError "path")); vm_compute; reflexivity.
  - destruct (@load_datasets_rewrite_errors Fixture2.framework Fixture.config
                (Fixture2.world_with_test "nan-path") "meta" (VStr "/data/images")
                Fixture.manifest Fixture.manifest Fixture2.manifest_nan_path
                (TypeError "expected str, bytes or os.PathLike object"))
      as (H & _); try (vm_compute; reflexivity).
    eexists. exact H.
Defined.

(** *** Rewriting twice *)

Lemma assoc_set_set {A : Type} (k : string) (v : A) (l : list (string * A)) :
  assoc_set k v (assoc_set k v l) = assoc_set k v l.
Proof.
  induction l as [|[k0 v0] l IH]; simpl.
  - now rewrite String.eqb_refl.
  - destruct (String.eqb k k0) eqn:E; simpl.
    + now rewrite String.eqb_refl.
    + now rewrite E, IH.
Qed.

(** X3.  With an absolute image base the rewriting of lines 44-46 is
    idempotent: applied to a manifest it has already rewritten, it
    returns that manifest unchanged. *)
Theorem rewrite_paths_idempotent (base : string) (df df' : DataFrame) :
  PosixPath.isabs base = true ->
  rewrite_paths (VStr base) df = Ok df' ->
  rewrite_paths (VStr base) df' = Ok df'.
Proof.
  intros Hbase H. unfold rewrite_paths, series_apply in *.
  destruct (df_getitem df "path") as [col0|e] eqn:H0; [simpl in H | discriminate].
  destruct (mapM_result _ col0) as [col|e] eqn:Hm; [simpl in H | discriminate].
  injection H as <-. rewrite df_getitem_setitem. simpl.
  assert (Hcol : mapM_result (fun x => modify_paths (VStr base) x) col = Ok col).
  { apply mapM_result_Forall2 in Hm. clear H0.
    induction Hm as [|x y col0 col Hxy _ IH]; [reflexivity |].
    simpl. apply modify_paths_ok_inv in Hxy as (rel & -> & ->).
    unfold modify_paths at 1. unfold os_path_join. simpl.
    rewrite (join_absolute base (PosixPath.join base rel))
      by (rewrite isabs_join, Hbase; apply orb_true_r).
    now rewrite IH. }
  rewrite Hcol. simpl. unfold df_setitem. simpl. now rewrite assoc_set_set.
Qed.

Lemma rewrite_paths_idempotent_witness :
  rewrite_paths (VStr "/data/images") Fixture.loaded = Ok Fixture.loaded.
Proof.
  apply (rewrite_paths_idempotent "/data/images" Fixture.manifest Fixture.loaded);
    reflexivity.
Defined.

(** *** The label transform at its edges *)

Lemma mapM_result_app_raise {A B : Type} (f : A -> result B) (l1 l2 : list A)
    (l1' : list B) (x : A) (e : exn) :
  mapM_result f l1 = Ok l1' -> f x = Raise e ->
  mapM_result f (l1 ++ x :: l2) = Raise e.
Proof.
  revert l1'. induction l1 as [|a l1 IH]; simpl; intros l1' H1 Hx.
  - now rewrite Hx.
  - destruct (f a) as [b|e1]; [simpl in * | discriminate].
    destruct (mapM_result f l1) as [bs|e1] eqn:E; [| discriminate].
    now rewrite (IH bs eq_refl Hx).
Qed.

Lemma split_heads_too_many (batch_y : ndarray2) (n : nat) :
  (nd_cols batch_y < n)%nat ->
  split_heads batch_y (VInt (Z.of_nat n))
    = Raise (IndexError "index is out of bounds for axis 1").
Proof.
  intros Hn. unfold split_heads, py_range. simpl. rewrite Nat2Z.id.
  replace n with (nd_cols batch_y + S (n - S (nd_cols batch_y)))%nat by lia.
  rewrite seq_app. cbn [seq].
  eapply mapM_result_app_raise.
  - apply mapM_result_total. intros i Hi. apply in_seq in Hi.
    unfold nd_column. destruct (Nat.ltb_spec i (nd_cols batch_y)); [reflexivity | lia].
  - unfold nd_column. simpl. now rewrite Nat.ltb_irrefl.
Qed.

(** X4.  [generator_wrapper] handles nothing itself.  When the wrapped
    iterator ends or raises, so does the generator.  For a batch whose
    label array has fewer columns than [num_classes] the list comprehension
    raises [IndexError] and the batch is not yielded; for a [num_classes]
    that is no integer it raises the [TypeError] of [range]; and for a
    [num_classes] of zero or less the batch is yielded with an empty list
    of heads. *)
Theorem generator_wrapper_edges (g : generator raw_batch) (s : gen_state g) :
  (forall num_classes,
     gen_next g s = GStop ->
     gen_next (generator_wrapper g num_classes) s = GStop) /\
  (forall num_classes e,
     gen_next g s = GRaise e ->
     gen_next (generator_wrapper g num_classes) s = GRaise e) /\
  (forall batch_x batch_y s' n,
     gen_next g s = GYield (batch_x, batch_y) s' ->
     (nd_cols batch_y < n)%nat ->
     gen_next (generator_wrapper g (VInt (Z.of_nat n))) s
       = GRaise (IndexError "index is out of bounds for axis 1")) /\
  (forall batch_x batch_y s' num_classes,
     gen_next g s = GYield (batch_x, batch_y) s' ->
     as_int num_classes = Raise (TypeError "an integer is required") ->
     gen_next (generator_wrapper g num_classes) s
       = GRaise (TypeError "object cannot be interpreted as an integer")) /\
  (forall batch_x batch_y s' z,
     gen_next g s = GYield (batch_x, batch_y) s' ->
     z <= 0 ->
     gen_next (generator_wrapper g (VInt z)) s = GYield (batch_x, []) s').
Proof.
  repeat split.
  - intros nc H. simpl. now rewrite H.
  - intros nc e H. simpl. now rewrite H.
  - intros bx by_ s' n H Hn. simpl. rewrite H. now rewrite split_heads_too_many.
  - intros bx by_ s' nc H Hnc. simpl. rewrite H.
    destruct nc; try discriminate Hnc; reflexivity.
  - intros bx by_ s' z H Hz. simpl. rewrite H. unfold split_heads, py_range. simpl.
    now replace (Z.to_nat z) with O by lia.
Qed.

Lemma generator_wrapper_edges_witness :
  gen_next (generator_wrapper (gen_of_list [(Fixture.batch_x, Fixture.batch_y)])
              (VInt (Z.of_nat 4)))
    [(Fixture.batch_x, Fixture.batch_y)]
    = GRaise (IndexError "index is out of bounds for axis 1") /\
  gen_next (generator_wrapper (gen_of_list [(Fixture.batch_x, Fixture.batch_y)])
              (VFloat 3))
    [(Fixture.batch_x, Fixture.batch_y)]
    = GRaise (TypeError "object cannot be interpreted as an integer") /\
  gen_next (generator_wrapper (gen_of_list [(Fixture.batch_x, Fixture.batch_y)])
              (VInt 0))
    [(Fixture.batch_x, Fixture.batch_y)]
    = GYield (Fixture.batch_x, []) [] /\
  gen_next (generator_wrapper (gen_of_list (@nil raw_batch)) (VInt 3)) [] = GStop.
Proof.
  pose proof (generator_wrapper_edges
                (gen_of_list [(Fixture.batch_x, Fixture.batch_y)])
                [(Fixture.batch_x, Fixture.batch_y)]) as (_ & _ & H3 & H4 & H5).
  pose proof (generator_wrapper_edges (gen_of_list (@nil raw_batch)) [])
    as (H1 & _).
  split; [| split; [| split]].
  - apply (H3 Fixture.batch_x Fixture.batch_y [] 4%nat); [reflexivity | simpl; lia].
  - apply (H4 Fixture.batch_x Fixture.batch_y []); reflexivity.
  - apply (H5 Fixture.batch_x Fixture.batch_y []); [reflexivity | lia].
  - apply H1. reflexivity.
Defined.

Lemma generator_wrapper_list_run (l0 : list raw_batch) (n : nat) :
  forall (s : list raw_batch) (fuel : nat),
    Forall (fun b => (n <= nd_cols (snd b))%nat) s ->
    (length s < fuel)%nat ->
    gen_run_from (generator_wrapper (gen_of_list l0) (VInt (Z.of_nat n))) s fuel
    = (map (fun b =>
              (fst b,
               map (fun i => map (fun row => nth i row VNaN) (nd_data (snd b)))
                 (seq 0 n)))
         s,
       Exhausted).
Proof.
  induction s as [|[bx by_] s IH]; intros fuel Hcols Hfuel.
  - destruct fuel; [simpl in Hfuel; lia | reflexivity].
  - destruct fuel; [simpl in Hfuel; lia |].
    apply Forall_cons in Hcols as [Hb Hcols]. simpl in Hb.
    cbn [gen_run_from generator_wrapper gen_next gen_of_list].
    rewrite split_heads_ok by exact Hb.
    change (gen_state (gen_of_list l0)) with (list raw_batch).
    rewrite (IH fuel Hcols) by (simpl in Hfuel; lia). reflexivity.
Qed.

(** X5.  Over an input that ends, [generator_wrapper] yields one item per
    input batch, in the input's order, and then ends: for batches that
    all have at least [num_classes] label columns, a consumer sees exactly
    the input batches with their label arrays split into the first
    [num_classes] columns. *)
Theorem generator_wrapper_over_list (batches : list raw_batch) (num_classes fuel : nat) :
  Forall (fun b => (num_classes <= nd_cols (snd b))%nat) batches ->
  (length batches < fuel)%nat ->
  gen_run (generator_wrapper (gen_of_list batches) (VInt (Z.of_nat num_classes))) fuel
  = (map (fun b =>
            (fst b,
             map (fun i => map (fun row => nth i row VNaN) (nd_data (snd b)))
               (seq 0 num_classes)))
       batches,
     Exhausted).
Proof. intros Hcols Hfuel. now apply generator_wrapper_list_run. Qed.

Lemma generator_wrapper_over_list_witness :
  gen_run (generator_wrapper
             (gen_of_list [(Fixture.batch_x, Fixture.batch_y);
                           (Fixture.batch_x, Fixture.batch_y)])
             (VInt (Z.of_nat 2))) 5
  = ([(Fixture.batch_x, [[VFloat 1; VFloat 0]; [VFloat 0; VFloat 1]]);
      (Fixture.batch_x, [[VFloat 1; VFloat 0]; [VFloat 0; VFloat 1]])],
     Exhausted).
Proof.
  apply (generator_wrapper_over_list
           [(Fixture.batch_x, Fixture.batch_y); (Fixture.batch_x, Fixture.batch_y)]
           2 5).
  - repeat constructor; simpl; lia.
  - simpl. lia.
Defined.

(** *** The shape of the batches *)

Lemma py_slice_length {A : Type} (l : list A) (c bs : Z) :
  0 <= c -> 0 <= bs -> Z.of_nat (length (py_slice l c (c + bs))) <= bs.
Proof.
  intros Hc Hbs. unfold py_slice.
  destruct (Z.ltb_spec c 0); [lia |].
  destruct (Z.ltb_spec (c + bs) 0); [lia |].
  rewrite length_take. lia.
Qed.

Lemma load_batch_length {F : Framework} (it : DataFrameIterator) idx r xs r' :
  load_batch it idx r = (Ok xs, r') -> length xs = length idx.
Proof.
  revert r xs r'. induction idx as [|j idx IH]; simpl; intros r xs r' H.
  - now injection H as <- _.
  - destruct (load_img _ _) as [img|e]; [| discriminate].
    destruct (transform_image _ r img) as [x r1].
    destruct (load_batch it idx r1) as [[ys|e] r2] eqn:Hl; [| discriminate].
    injection H as <- _. simpl. f_equal. eapply IH, Hl.
Qed.

Lemma iter_next_shape {F : Framework} (it : DataFrameIterator) (bs : Z) s xs ys s' :
  batch_size it = VInt bs -> 0 <= bs ->
  iter_next it s = GYield (xs, ys) s' ->
  length xs = nd_rows ys /\ Z.of_nat (length xs) <= bs /\
  nd_cols ys = nd_cols (targets it).
Proof.
  intros Hbs Hpos H. unfold iter_next in H. rewrite Hbs in H. simpl in H.
  unfold flow_index in H.
  destruct (if batch_index s =? 0 then _ else _) as [arr r1].
  set (c := if samples it =? 0 then 0 else (batch_index s * bs) mod samples it) in *.
  assert (Hc : 0 <= c).
  { unfold c. destruct (Z.eqb_spec (samples it) 0); [lia |].
    apply Z.mod_pos_bound. unfold samples in *. lia. }
  cbn [rng] in H.
  destruct (load_batch it (py_slice arr c (c + bs)) r1) as [[batch|e] r2] eqn:Hl;
    [| discriminate].
  injection H as <- <- _.
  apply load_batch_length in Hl.
  unfold nd_rows, take_rows. simpl. rewrite length_map, Hl.
  split; [reflexivity |]. split; [now apply py_slice_length | reflexivity].
Qed.

Lemma split_heads_lengths (batch_y : ndarray2) (nc : value) (heads : list (list value)) :
  split_heads batch_y nc = Ok heads ->
  Forall (fun h => length h = nd_rows batch_y) heads.
Proof.
  unfold split_heads. destruct (py_range nc) as [r|e]; [simpl | discriminate].
  intros H. apply mapM_result_Forall2 in H.
  induction H as [|i h r heads Hih _ IH]; constructor; [| exact IH].
  eapply nd_column_length, Hih.
Qed.

Lemma gen_run_items {A : Type} (g : generator A) (P : A -> Prop) :
  (forall s a s', gen_next g s = GYield a s' -> P a) ->
  forall fuel s, Forall P (fst (gen_run_from g s fuel)).
Proof.
  intros HP. induction fuel as [|fuel IH]; intros s; simpl; [constructor |].
  destruct (gen_next g s) as [a s'| |e] eqn:Hn; try constructor.
  specialize (IH s'). destruct (gen_run_from g s' fuel) as [items e].
  simpl in *. constructor; [eapply HP, Hn | exact IH].
Qed.

Lemma wrapped_batches_shape {F : Framework} (it : DataFrameIterator) (bs : Z)
    (nc : value) (fuel : nat) :
  batch_size it = VInt bs -> 0 <= bs ->
  Forall (fun batch : head_batch =>
            Z.of_nat (length (fst batch)) <= bs /\
            Forall (fun h => length h = length (fst batch)) (snd batch))
    (fst (gen_run (generator_wrapper (iterate it) nc) fuel)).
Proof.
  intros Hbs Hpos. apply gen_run_items. intros s [xs heads] s' H.
  cbn [generator_wrapper gen_next iterate] in H.
  destruct (iter_next it s) as [[bx by_] s1| |e] eqn:Hn; try discriminate.
  destruct (split_heads by_ nc) as [hs|e] eqn:Hs; [| discriminate].
  injection H as <- <- _.
  destruct (iter_next_shape it bs s bx by_ s1 Hbs Hpos Hn) as (Hrows & Hle & _).
  simpl. split; [exact Hle |]. rewrite Hrows. eapply split_heads_lengths, Hs.
Qed.

(** X6.  Every batch that one of the three generators of
    [get_image_generators] yields is well shaped: it holds at most
    [BATCH_SIZE] images ([TEST_BATCH] for the test generator), and each of
    its label heads has exactly one entry per image of the batch. *)
Theorem batches_well_shaped {F : Framework}
    train valid test config w b nc w' bs tb (fuel : nat) :
  flow_batches train valid test config w = (Ok (b, nc), w') ->
  getitem config "BATCH_SIZE" = Ok (VInt bs) ->
  getitem config "TEST_BATCH" = Ok (VInt tb) ->
  0 <= bs -> 0 <= tb ->
  Forall (fun it_size : DataFrameIterator * Z =>
            Forall (fun batch : head_batch =>
                      Z.of_nat (length (fst batch)) <= snd it_size /\
                      Forall (fun h => length h = length (fst batch)) (snd batch))
              (fst (gen_run (generator_wrapper (iterate (fst it_size)) nc) fuel)))
    [(train_batches b, bs); (validate_batches b, bs); (test_batches b, tb)].
Proof.
  intros H Hbs Htb Hpos Hpos'.
  apply flow_batches_inv in H
    as (HT & WD & BS & TB & _ & _ & HBS & HTB & _ & F1 & F2 & F3).
  rewrite Hbs in HBS. injection HBS as <-. rewrite Htb in HTB. injection HTB as <-.
  apply flow_from_dataframe_inv in F1 as (? & ? & ? & _ & _ & _ & E1).
  apply flow_from_dataframe_inv in F2 as (? & ? & ? & _ & _ & _ & E2).
  apply flow_from_dataframe_inv in F3 as (? & ? & ? & _ & _ & _ & E3).
  repeat constructor; simpl; apply wrapped_batches_shape;
    solve [assumption | now rewrite E1 | now rewrite E2 | now rewrite E3].
Qed.

Lemma batches_well_shaped_witness :
  Forall (fun it_size : DataFrameIterator * Z =>
            Forall (fun batch : head_batch =>
                      Z.of_nat (length (fst batch)) <= snd it_size /\
                      Forall (fun h => length h = length (fst batch)) (snd batch))
              (fst (gen_run (generator_wrapper
                               (@iterate Fixture.framework (fst it_size)) (VInt 14)) 4)))
    [(train_batches Fixture.flowed, 2); (validate_batches Fixture.flowed, 2);
     (test_batches Fixture.flowed, 2)].
Proof.
  apply (@batches_well_shaped Fixture.framework Fixture.loaded Fixture.loaded
           Fixture.loaded Fixture.config Fixture.world Fixture.flowed (VInt 14)
           Fixture.world_flowed 2 2 4).
  - vm_compute. reflexivity.
  - reflexivity.
  - reflexivity.
  - lia.
  - lia.
Defined.

(** *** The seed of the training iterator *)

Lemma flow_index_seeded {F : Framework} (it : DataFrameIterator) (bs sd : Z)
    (s1 s2 : iter_state) :
  seed it = Some sd ->
  batch_index s1 = batch_index s2 ->
  total_batches_seen s1 = total_batches_seen s2 ->
  index_array s1 = index_array s2 ->
  flow_index it bs s1 = flow_index it bs s2.
Proof.
  intros Hsd Hb Ht Ha. unfold flow_index. now rewrite Hsd, Hb, Ht, Ha.
Qed.

Lemma iter_next_seeded {F : Framework} (it : DataFrameIterator) (sd : Z)
    (s1 s2 : iter_state) :
  seed it = Some sd ->
  batch_index s1 = batch_index s2 ->
  total_batches_seen s1 = total_batches_seen s2 ->
  index_array s1 = index_array s2 ->
  iter_next it s1 = iter_next it s2.
Proof.
  intros Hsd Hb Ht Ha. unfold iter_next.
  destruct (as_int (batch_size it)) as [bs|e]; [| reflexivity].
  now rewrite (flow_index_seeded it bs sd s1 s2 Hsd Hb Ht Ha).
Qed.

(** X7.  The training iterator is built with [seed=1], so the random
    generator is set anew from the seed and the batch count before every
    batch: the batches the training generator yields, their order, their
    rows and their augmented images, do not depend on the state of the
    random generator when the iteration starts or resumes. *)
Theorem train_batches_reproducible {F : Framework}
    train valid test config w b nc w' (fuel : nat) (s1 s2 : iter_state) :
  flow_batches train valid test config w = (Ok (b, nc), w') ->
  batch_index s1 = batch_index s2 ->
  total_batches_seen s1 = total_batches_seen s2 ->
  index_array s1 = index_array s2 ->
  seed (train_batches b) = Some 1 /\
  gen_run_from (generator_wrapper (iterate (train_batches b)) nc) s1 fuel
  = gen_run_from (generator_wrapper (iterate (train_batches b)) nc) s2 fuel.
Proof.
  intros H Hb Ht Ha.
  apply flow_batches_inv in H
    as (HT & WD & BS & TB & _ & _ & _ & _ & _ & F1 & _ & _).
  apply flow_from_dataframe_inv in F1 as (? & ? & ? & _ & _ & _ & E1).
  assert (Hsd : seed (train_batches b) = Some 1) by now rewrite E1.
  split; [exact Hsd |].
  destruct fuel as [|fuel]; [reflexivity |].
  cbn [gen_run_from generator_wrapper gen_next iterate].
  now rewrite (iter_next_seeded (train_batches b) 1 s1 s2 Hsd Hb Ht Ha).
Qed.

Lemma train_batches_reproducible_witness :
  gen_run_from (generator_wrapper
                  (@iterate Fixture.framework (train_batches Fixture.flowed)) (VInt 14))
    (@iter_init Fixture.framework) 3
  = gen_run_from (generator_wrapper
                    (@iterate Fixture.framework (train_batches Fixture.flowed)) (VInt 14))
      (@Build_iter_state Fixture.framework 0 0 [] 7%nat) 3.
Proof.
  apply (@train_batches_reproducible Fixture.framework Fixture.loaded Fixture.loaded
           Fixture.loaded Fixture.config Fixture.world Fixture.flowed (VInt 14)
           Fixture.world_flowed 3 (@iter_init Fixture.framework)
           (@Build_iter_state Fixture.framework 0 0 [] 7%nat)).
  - vm_compute. reflexivity.
  - reflexivity.
  - reflexivity.
  - reflexivity.
Defined.

(** *** Building the generators *)



(** *** The step counts *)







(** X11.  [train_model] hands [model.compile] one ['binary_crossentropy']
    per class of the configuration, so for the model that [get_model]
    builds from the same [NUM_CLASSES], as the [__main__] block does, the
    list of losses is exactly as long as the list of the model's
    outputs. *)
Theorem losses_match_heads {F : Framework}
    globals model train_ds valid_ds config w ca fa w' :
  prepare_training globals model train_ds valid_ds config w = (Ok (ca, fa), w') ->
  exists num_classes m,
    getitem config "NUM_CLASSES" = Ok num_classes /\
    get_model num_classes = Ok m /\
    length (ca_loss ca) = length (outputs m) /\
    Forall (fun loss => loss = "binary_crossentropy") (ca_loss ca).
Proof.
  intros H.
  apply prepare_training_inv in H
    as (BS & lr & ep & d & tr & va & n & m & nc & r & _ & _ & _ & _ & _ & _
        & _ & _ & H9 & H10 & H11 & _).
  exists nc. unfold get_model. rewrite H10. simpl. eexists.
  split; [exact H9 |]. split; [reflexivity |]. simpl. rewrite H11. simpl.
  split.
  - now rewrite add_heads_map, !length_map, length_seq.
  - apply Forall_forall. intros loss Hin. apply list_elem_of_In, in_map_iff in Hin.
    now destruct Hin as (i & <- & _).
Qed.

Lemma losses_match_heads_witness :
  exists num_classes m,
    getitem Fixture.config "NUM_CLASSES" = Ok num_classes /\
    get_model num_classes = Ok m /\
    length (ca_loss Fixture.compile_arguments) = length (outputs m) /\
    Forall (fun loss => loss = "binary_crossentropy")
      (ca_loss Fixture.compile_arguments).
Proof.
  apply (@losses_match_heads Fixture.framework Fixture.globals Fixture.model
           Fixture.no_batches Fixture.no_batches Fixture.config Fixture.world
           Fixture.compile_arguments Fixture.fit_arguments Fixture.world_prepared).
  vm_compute. reflexivity.
Defined.

(** *** The checkpoint directory *)

Lemma prepare_training_makedirs {F : Framework}
    globals model train_ds valid_ds config w ca fa w' weights_dir :
  prepare_training globals model train_ds valid_ds config w = (Ok (ca, fa), w') ->
  getitem config "WEIGHTS_DIR" = Ok (VStr weights_dir) ->
  fs w !! weights_dir = None ->
  PosixPath.is_empty weights_dir = false.
Proof.
  unfold prepare_training. intros H Hd Hnone.
  apply bind_ok_inv in H as (BS & w1 & H1 & H). apply lift_ok_inv in H1 as [H1 ->].
  apply bind_ok_inv in H as (TB & w1 & H2 & H). apply lift_ok_inv in H2 as [H2 ->].
  apply bind_ok_inv in H as (lr & w1 & H3 & H). apply lift_ok_inv in H3 as [H3 ->].
  apply bind_ok_inv in H as (ep & w1 & H4 & H). apply lift_ok_inv in H4 as [H4 ->].
  apply bind_ok_inv in H as (wd & w1 & H5 & H). apply lift_ok_inv in H5 as [H5 ->].
  apply bind_ok_inv in H as (tr & w1 & H6 & H). apply lift_ok_inv in H6 as [H6 ->].
  apply bind_ok_inv in H as (n & w1 & H7 & H). apply lift_ok_inv in H7 as [H7 ->].
  apply bind_ok_inv in H as (te & w1 & H8 & H). apply lift_ok_inv in H8 as [H8 ->].
  apply bind_ok_inv in H as (va & w1 & H9 & H). apply lift_ok_inv in H9 as [H9 ->].
  apply bind_ok_inv in H as (m & w1 & H10 & H). apply lift_ok_inv in H10 as [H10 ->].
  apply bind_ok_inv in H as (ve & w1 & H11 & H). apply lift_ok_inv in H11 as [H11 ->].
  apply bind_ok_inv in H as (nc & w1 & H12 & H). apply lift_ok_inv in H12 as [H12 ->].
  apply bind_ok_inv in H as (r & w1 & H13 & H). apply lift_ok_inv in H13 as [H13 ->].
  apply bind_ok_inv in H as ([] & w1 & H14 & H).
  apply bind_ok_inv in H as ([] & w2 & H15 & H). apply lift_ok_inv in H15 as [H15 ->].
  apply bind_ok_inv in H as (d & w2 & H16 & H). apply lift_ok_inv in H16 as [H16 ->].
  apply bind_ok_inv in H as (present & w2 & H17 & H).
  apply bind_ok_inv in H as ([] & w3 & H18 & _).
  rewrite Hd in H5. injection H5 as <-. simpl in H16. injection H16 as <-.
  unfold print in H14. injection H14 as <-.
  unfold os_path_exists in H17. simpl in H17. injection H17 as <- <-.
  rewrite bool_decide_eq_false_2 in H18 by (rewrite Hnone; apply is_Some_None).
  simpl in H18. unfold os_makedirs in H18.
  destruct (PosixPath.is_empty weights_dir); [discriminate | reflexivity].
Qed.

(** X12.  The guard of lines 156-157 makes [train_model] safe to call
    again: when something is already at [WEIGHTS_DIR] the file system is
    left as it is and [os.makedirs], which would fail, is not called; in
    every case where [model.fit] is reached something is at [WEIGHTS_DIR];
    and with nothing at an empty [WEIGHTS_DIR] the call does not get as
    far as [model.fit]. *)
Theorem weights_dir_guard {F : Framework}
    globals model train_ds valid_ds config w ca fa w' weights_dir :
  prepare_training globals model train_ds valid_ds config w = (Ok (ca, fa), w') ->
  getitem config "WEIGHTS_DIR" = Ok (VStr weights_dir) ->
  is_Some (fs w' !! weights_dir) /\
  (is_Some (fs w !! weights_dir) -> fs w' = fs w) /\
  (fs w !! weights_dir = None -> weights_dir <> "").
Proof.
  intros H Hd. pose proof H as Hinv.
  apply prepare_training_inv in Hinv
    as (BS & lr & ep & d & tr & va & n & m & nc & r & _ & _ & _ & Hd' & _ & _
        & _ & _ & _ & _ & _ & _ & _ & _ & _ & Hw & _).
  rewrite Hd in Hd'. injection Hd' as <-.
  split; [| split].
  - rewrite Hw. case_bool_decide; [assumption |].
    rewrite lookup_insert_eq. eauto.
  - intros Hsome. rewrite Hw. now rewrite bool_decide_eq_true_2.
  - intros Hnone ->.
    pose proof (prepare_training_makedirs _ _ _ _ _ _ _ _ _ _ H Hd Hnone) as He.
    discriminate He.
Qed.

Lemma weights_dir_guard_witness :
  is_Some (fs Fixture2.world_prepared_twice !! "weights") /\
  fs Fixture2.world_prepared_twice = fs Fixture.world_prepared.
Proof.
  destruct (@weights_dir_guard Fixture.framework Fixture.globals Fixture.model
              Fixture.no_batches Fixture.no_batches Fixture.config
              Fixture.world_prepared Fixture.compile_arguments Fixture.fit_arguments
              Fixture2.world_prepared_twice "weights")
    as (H1 & H2 & _).
  - vm_compute. reflexivity.
  - reflexivity.
  - split; [exact H1 |]. apply H2. vm_compute. eauto.
Defined.

(** *** One epoch and one pass *)





(** *** The run as a whole *)




Lemma main_from_model {F : Framework}
    w config train valid test train_ds valid_ds test_ds w1 nc model :
  load_config "config.json" w = (Ok config, w) ->
  load_datasets config w = (Ok (train, valid, test), w) ->
  get_image_generators train valid test config w
    = (Ok (train_ds, valid_ds, test_ds), w1) ->
  getitem config "NUM_CLASSES" = Ok nc ->
  get_model nc = Ok model ->
  main w
  = bind (train_model (main_globals config train valid test nc) model
            train_ds valid_ds config)
      (fun hist =>
         bind (keras_predict model test_ds)
           (fun Y_pred =>
              bind (write_file "predictions" (pickle_dumps Y_pred))
                (fun _ => write_file "train_hist" (pickle_dumps (history hist)))))
      w1.
Proof.
  intros H1 H2 H3 H4 H5. unfold main.
  rewrite (bind_ok _ _ _ _ _ H1), (bind_ok _ _ _ _ _ H2), (bind_ok _ _ _ _ _ H3).
  rewrite H4, bind_lift_ok, H5, bind_lift_ok. reflexivity.
Qed.

(** X15.  Once the model is built, the [__main__] block stops at the
    first step that fails and nothing is caught: when training raises,
    [model.predict] is not called and no file is written; when
    [model.predict] raises, no file is written; when [predictions] is a
    directory the run ends there, and when [train_hist] is one, the run
    ends with [predictions] already written.  Otherwise the run ends with
    both files written, [predictions] first, and has changed nothing else
    after the prediction. *)
Theorem main_outcomes {F : Framework}
    w config train valid test train_ds valid_ds test_ds w1 nc model :
  load_config "config.json" w = (Ok config, w) ->
  load_datasets config w = (Ok (train, valid, test), w) ->
  get_image_generators train valid test config w
    = (Ok (train_ds, valid_ds, test_ds), w1) ->
  getitem config "NUM_CLASSES" = Ok nc ->
  get_model nc = Ok model ->
  (forall e w2,
     train_model (main_globals config train valid test nc) model
       train_ds valid_ds config w1 = (Raise e, w2) ->
     main w = (Raise e, w2)) /\
  (forall hist w2,
     train_model (main_globals config train valid test nc) model
       train_ds valid_ds config w1 = (Ok hist, w2) ->
     (forall e w3,
        keras_predict model test_ds w2 = (Raise e, w3) ->
        main w = (Raise e, w3)) /\
     (forall Y_pred w3,
        keras_predict model test_ds w2 = (Ok Y_pred, w3) ->
        (fs w3 !! "predictions" = Some Dir ->
         main w = (Raise (IsADirectoryError "predictions"), w3)) /\
        (fs w3 !! "predictions" <> Some Dir ->
         fs w3 !! "train_hist" = Some Dir ->
         main w
         = (Raise (IsADirectoryError "train_hist"),
            {| fs := <["predictions" := File (pickle_dumps Y_pred)]> (fs w3);
               stdout := stdout w3 |})) /\
        (fs w3 !! "predictions" <> Some Dir ->
         fs w3 !! "train_hist" <> Some Dir ->
         main w
         = (Ok tt,
            {| fs := <["train_hist" := File (pickle_dumps (history hist))]>
                       (<["predictions" := File (pickle_dumps Y_pred)]> (fs w3));
               stdout := stdout w3 |})))).
Proof.
  intros H1 H2 H3 H4 H5.
  rewrite (main_from_model _ _ _ _ _ _ _ _ _ _ _ H1 H2 H3 H4 H5).
  split.
  - intros e w2 Ht. now apply bind_raise.
  - intros hist w2 Ht. rewrite (bind_ok _ _ _ _ _ Ht). split.
    + intros e w3 Hp. now apply bind_raise.
    + intros Y_pred w3 Hp. rewrite (bind_ok _ _ _ _ _ Hp).
      assert (Hwrite : forall path content (w0 : World),
                fs w0 !! path <> Some Dir ->
                write_file path content w0
                = (Ok tt, {| fs := <[path := File content]> (fs w0);
                             stdout := stdout w0 |})).
      { intros path content w0 Hne. unfold write_file.
        destruct (fs w0 !! path) as [[c|]|]; congruence. }
      split; [| split].
      * intros Hdir. apply bind_raise. unfold write_file. now rewrite Hdir.
      * intros Hne Hdir. rewrite (bind_ok _ _ _ _ _ (Hwrite _ _ _ Hne)).
        unfold write_file. simpl. rewrite lookup_insert_ne by discriminate.
        now rewrite Hdir.
      * intros Hne Hne'. rewrite (bind_ok _ _ _ _ _ (Hwrite _ _ _ Hne)).
        refine (Hwrite "train_hist" _
                  {| fs := <["predictions" := File (pickle_dumps Y_pred)]> (fs w3);
                     stdout := stdout w3 |} _).
        simpl. now rewrite lookup_insert_ne by discriminate.
Qed.

Lemma main_outcomes_witness :
  @main Fixture.framework Fixture2.world_predictions_dir
  = (Raise (IsADirectoryError "predictions"), Fixture2.world_predictions_dir_trained).
Proof.
  assert (Hflow : @flow_batches Fixture.framework Fixture.loaded Fixture.loaded
                    Fixture.loaded Fixture.config Fixture2.world_predictions_dir
                  = (Ok (Fixture.flowed, VInt 14),
                     {| fs := fs Fixture2.world_predictions_dir;
                        stdout := ["Num labels 14"] |}))
    by (vm_compute; reflexivity).
  assert (Hgens : @get_image_generators Fixture.framework Fixture.loaded
                    Fixture.loaded Fixture.loaded Fixture.config
                    Fixture2.world_predictions_dir
                  = (Ok (generator_wrapper (@iterate Fixture.framework
                                              (train_batches Fixture.flowed)) (VInt 14),
                         generator_wrapper (@iterate Fixture.framework
                                              (validate_batches Fixture.flowed)) (VInt 14),
                         generator_wrapper (@iterate Fixture.framework
                                              (test_batches Fixture.flowed)) (VInt 14)),
                     {| fs := fs Fixture2.world_predictions_dir;
                        stdout := ["Num labels 14"] |})).
  { unfold get_image_generators. rewrite (bind_ok _ _ _ _ _ Hflow). reflexivity. }
  destruct (@main_outcomes Fixture.framework Fixture2.world_predictions_dir
              Fixture.config Fixture.loaded Fixture.loaded Fixture.loaded
              _ _ _ _ (VInt 14) Fixture.model
              ltac:(vm_compute; reflexivity) ltac:(vm_compute; reflexivity)
              Hgens ltac:(vm_compute; reflexivity) ltac:(vm_compute; reflexivity))
    as (_ & Htrained).
  destruct (Htrained {| history := VDict ∅ |} Fixture2.world_predictions_dir_trained)
    as (_ & Hpredicted); [vm_compute; reflexivity |].
  destruct (Hpredicted (VList []) Fixture2.world_predictions_dir_trained)
    as (Hdir & _); [vm_compute; reflexivity |].
  apply Hdir. vm_compute. reflexivity.
Defined.



(** *** Which labels a head gets *)

Lemma iter_next_rows {F : Framework} (it : DataFrameIterator) s xs ys s' :
  iter_next it s = GYield (xs, ys) s' ->
  exists idx, ys = take_rows (targets it) idx /\ length xs = length idx.
Proof.
  unfold iter_next. destruct (as_int (batch_size it)) as [bs|e]; [| discriminate].
  destruct (flow_index it bs s) as [idx s1].
  destruct (load_batch it idx (rng s1)) as [[batch|e] r] eqn:Hl; [| discriminate].
  intros [= <- <- _]. exists idx. split; [reflexivity |].
  eapply load_batch_length, Hl.
Qed.

Lemma py_range_seq (nc : value) (r : list nat) :
  py_range nc = Ok r -> exists m, r = seq 0 m.
Proof. destruct nc; try discriminate; intros [= <-]; eauto. Qed.

Lemma df_getitem_length (df : DataFrame) (name : string) (col : list value) :
  df_wf df -> df_getitem df name = Ok col -> length col = df_rows df.
Proof.
  unfold df_wf, df_getitem. intros Hwf H.
  destruct (assoc_get name (df_columns df)) as [c|] eqn:Hc; [| discriminate].
  injection H as ->. apply assoc_get_In in Hc.
  rewrite Forall_forall in Hwf.
  exact (Hwf _ (proj2 (list_elem_of_In _ _) Hc)).
Qed.

Lemma label_cell (cols : list (list value)) (col : list value) (n i j : nat) :
  cols !! i = Some col ->
  length col = n ->
  nth i (nth j (map (label_row cols) (seq 0 n)) []) VNaN = nth j col VNaN.
Proof.
  intros Hi Hlen. destruct (Nat.lt_ge_cases j n) as [Hj | Hj].
  - rewrite (nth_indep _ [] (label_row cols 0)) by now rewrite length_map, length_seq.
    rewrite map_nth, seq_nth by exact Hj. simpl. unfold label_row.
    apply nth_lookup_Some. now rewrite list_lookup_fmap, Hi.
  - rewrite (nth_overflow (map _ _)) by now rewrite length_map, length_seq.
    rewrite (nth_overflow col) by lia. now destruct i.
Qed.

Lemma wrapped_heads_labels {F : Framework} g df y size shuf sd bs it :
  flow_from_dataframe g df "path" y size shuf sd bs = Ok it ->
  df_wf df ->
  (forall col name, df_getitem df "path" = Ok col -> In (VStr name) col ->
     valid_image_file name = true) ->
  forall nc s xs heads s',
    gen_next (generator_wrapper (iterate it) nc) s = GYield (xs, heads) s' ->
    exists idx,
      length idx = length xs /\
      forall i head name col,
        heads !! i = Some head ->
        y !! i = Some name ->
        df_getitem df name = Ok col ->
        head = map (fun j => nth j col VNaN) idx.
Proof.
  intros Hflow Hwf Hvalid nc s xs heads s' H.
  destruct (flow_keeps_valid_rows _ _ _ _ _ _ _ _ _ Hflow)
    as (names & cols & Hp & Hcols & Hrows).
  destruct Hrows as [_ Hdata].
  { apply Forall_forall. intros name Hin. apply (Hvalid _ name Hp).
    apply in_map. now apply list_elem_of_In. }
  assert (Hn : length names = df_rows df).
  { rewrite <- (df_getitem_length _ _ _ Hwf Hp). now rewrite length_map. }
  cbn [generator_wrapper gen_next iterate] in H.
  destruct (iter_next it s) as [[bx by_] s1| |e] eqn:Hnext; try discriminate.
  destruct (split_heads by_ nc) as [hs|e] eqn:Hs; [| discriminate].
  injection H as <- <- _.
  apply iter_next_rows in Hnext as (idx & -> & Hlen).
  exists idx. split; [now symmetry |].
  intros i head name col Hh Hy Hcol.
  unfold split_heads in Hs.
  destruct (py_range nc) as [r|e] eqn:Hr; [simpl in Hs | discriminate].
  apply py_range_seq in Hr as [m ->].
  apply mapM_result_Forall2 in Hs.
  destruct (Forall2_lookup_r _ _ _ _ _ Hs Hh) as (i' & Hi' & Hc).
  apply lookup_seq in Hi' as [-> _]. simpl in Hc.
  unfold nd_column in Hc.
  match type of Hc with
  | context [if ?c then _ else _] => destruct c; [| discriminate]
  end.
  injection Hc as <-. simpl. rewrite map_map. apply map_ext. intros j.
  rewrite Hdata.
  apply mapM_result_Forall2 in Hcols.
  destruct (Forall2_lookup_l _ _ _ _ _ Hcols Hy) as (c & Hci & Hc).
  rewrite Hcol in Hc. injection Hc as <-.
  apply label_cell; [exact Hci |].
  now rewrite (df_getitem_length _ _ _ Hwf Hcol).
Qed.

(** X17.  Head [i] of every batch carries the labels of finding
    [labels[i]]: for each of the three generators, over a manifest whose
    columns have one cell per row and whose image files are all valid, the
    [i]-th entry of a batch's label list is the manifest's column named
    [labels[i]], read at the rows of the batch, one value per image. *)
Theorem heads_hold_their_labels {F : Framework} train valid test config w b nc w' :
  flow_batches train valid test config w = (Ok (b, nc), w') ->
  Forall (fun df_it : DataFrame * DataFrameIterator =>
            df_wf (fst df_it) ->
            (forall col name, df_getitem (fst df_it) "path" = Ok col ->
               In (VStr name) col -> valid_image_file name = true) ->
            forall s xs heads s',
              gen_next (generator_wrapper (iterate (snd df_it)) nc) s
                = GYield (xs, heads) s' ->
              exists idx,
                length idx = length xs /\
                forall i head name col,
                  heads !! i = Some head ->
                  labels !! i = Some name ->
                  df_getitem (fst df_it) name = Ok col ->
                  head = map (fun j => nth j col VNaN) idx)
    [(train, train_batches b); (valid, validate_batches b); (test, test_batches b)].
Proof.
  intros H.
  apply flow_batches_inv in H
    as (HT & WD & BS & TB & _ & _ & _ & _ & _ & F1 & F2 & F3).
  constructor; [| constructor; [| constructor; [| constructor]]];
    cbn [fst snd]; intros Hwf Hvalid s xs heads s' Hnext.
  - exact (wrapped_heads_labels _ _ _ _ _ _ _ _ F1 Hwf Hvalid nc s xs heads s' Hnext).
  - exact (wrapped_heads_labels _ _ _ _ _ _ _ _ F2 Hwf Hvalid nc s xs heads s' Hnext).
  - exact (wrapped_heads_labels _ _ _ _ _ _ _ _ F3 Hwf Hvalid nc s xs heads s' Hnext).
Qed.

Lemma heads_hold_their_labels_witness :
  exists idx,
    length idx = 2%nat /\
    forall i head name col,
      repeat [VFloat 1; VFloat 0] 14 !! i = Some head ->
      labels !! i = Some name ->
      df_getitem Fixture.loaded name = Ok col ->
      head = map (fun j => nth j col VNaN) idx.
Proof.
  assert (Hflow : @flow_batches Fixture.framework Fixture.loaded Fixture.loaded
                    Fixture.loaded Fixture.config Fixture.world
                  = (Ok (Fixture.flowed, VInt 14), Fixture.world_flowed))
    by (vm_compute; reflexivity).
  pose proof (@heads_hold_their_labels Fixture.framework Fixture.loaded
                Fixture.loaded Fixture.loaded Fixture.config Fixture.world
                Fixture.flowed (VInt 14) Fixture.world_flowed Hflow) as H.
  apply Forall_cons in H as [_ H]. apply Forall_cons in H as [_ H].
  apply Forall_cons in H as [H _]. cbn [fst snd] in H.
  assert (Hwf : df_wf Fixture.loaded).
  { apply Forall_forall. intros c Hc. apply list_elem_of_In in Hc.
    vm_compute in Hc. vm_compute.
    repeat (destruct Hc as [<- | Hc]; [reflexivity |]). destruct Hc. }
  assert (Hstep : @iter_next Fixture.framework (test_batches Fixture.flowed)
                    (@iter_init Fixture.framework)
                  = GYield ([[[[20 # 255]]]; [[[20 # 255]]]],
                            {| nd_cols := 14;
                               nd_data := [repeat (VFloat 1) 14; repeat (VFloat 0) 14] |})
                      (@Build_iter_state Fixture.framework 1 1 [0; 1; 2]%nat 4%nat))
    by (vm_compute; reflexivity).
  assert (Hsplit : split_heads
                     {| nd_cols := 14;
                        nd_data := [repeat (VFloat 1) 14; repeat (VFloat 0) 14] |}
                     (VInt 14)
                   = Ok (repeat [VFloat 1; VFloat 0] 14))
    by (vm_compute; reflexivity).
  apply (H Hwf ltac:(intros col name _ _; reflexivity)
           (@iter_init Fixture.framework)
           [[[[20 # 255]]]; [[[20 # 255]]]]
           (repeat [VFloat 1; VFloat 0] 14)
           (@Build_iter_state Fixture.framework 1 1 [0; 1; 2]%nat 4%nat)).
  cbn [generator_wrapper gen_next iterate]. rewrite Hstep, Hsplit. reflexivity.
Defined.
